(** * Aladhan MCP server: a shallow embedding of [aladhan_mcp_server.py]

    The server is a thin gateway: a tool call builds one HTTP GET against the
    Aladhan REST API and renders the JSON answer as a single text block.
    This file embeds [call_aladhan_api] and [handle_call_tool] together with
    the part of the Python runtime they rely on (JSON values, dictionaries in
    insertion order, exceptions, [strptime]/[strftime], float comparison and
    the [.2f] format), and proves the properties of the specification.

    Conventions.
    - A Python [str] is a [string]: the bytes of its UTF-8 encoding.
    - A Python [float] is an IEEE 754 binary64 value, [spec_float] with
      precision 53 and maximal exponent 1024.
    - A Python [dict] is an association list in insertion order.
    - Wording of exception messages follows CPython 3.11. *)

From Stdlib Require Import ZArith QArith List String Ascii Bool Lia.
From Stdlib Require Import SpecFloat DecimalString.
Import ListNotations.

Local Open Scope string_scope.
Local Open Scope Z_scope.

(** ** Strings *)

(** The line feed written [\n] in the source. *)
Definition nl : string := String (ascii_of_nat 10) EmptyString.

(** [needle in hay] for two Python strings. *)
Fixpoint is_substring (needle hay : string) : bool :=
  if String.prefix needle hay then true
  else match hay with
       | EmptyString => false
       | String _ rest => is_substring needle rest
       end.

(** [sep.join(parts)]. *)
Fixpoint join (sep : string) (parts : list string) : string :=
  match parts with
  | [] => ""
  | [p] => p
  | p :: rest => p ++ sep ++ join sep rest
  end.

(** [str(z)] for a Python [int]. *)
Definition str_of_int (z : Z) : string := NilZero.string_of_int (Z.to_int z).

Definition digit_char (d : Z) : ascii := ascii_of_nat (48 + Z.to_nat d).

(** Two decimal digits with a leading zero, as [%d] and [%m] of [strftime]
    and the fraction of [.2f] print them. *)
Definition pad2 (n : Z) : string :=
  String (digit_char (n / 10)) (String (digit_char (n mod 10)) EmptyString).

(** Four decimal digits with leading zeros. *)
Definition pad4 (n : Z) : string :=
  String (digit_char (n / 1000))
    (String (digit_char (n / 100 mod 10))
       (String (digit_char (n / 10 mod 10))
          (String (digit_char (n mod 10)) EmptyString))).

(** ** Values

    What [json.loads] can produce, which is also what the tool-call transport
    hands over as [arguments]. *)
#[warnings="-register-all"]
Inductive pyval : Type :=
| PNone
| PBool (b : bool)
| PInt (z : Z)
| PFloat (f : spec_float)
| PStr (s : string)
| PList (l : list pyval)
| PDict (d : list (string * pyval)).

Definition dict : Type := list (string * pyval).

Definition type_name (v : pyval) : string :=
  match v with
  | PNone => "NoneType"
  | PBool _ => "bool"
  | PInt _ => "int"
  | PFloat _ => "float"
  | PStr _ => "str"
  | PList _ => "list"
  | PDict _ => "dict"
  end.

(** Lookup in the association list: the first binding of the key. *)
Fixpoint lookup {V : Type} (k : string) (d : list (string * V)) : option V :=
  match d with
  | [] => None
  | (k', v) :: rest => if String.eqb k k' then Some v else lookup k rest
  end.

Definition has_key {V : Type} (k : string) (d : list (string * V)) : bool :=
  match lookup k d with Some _ => true | None => false end.

(** [d[k] = v]: an existing key keeps its place, a new key goes last. *)
Fixpoint setitem (d : dict) (k : string) (v : pyval) : dict :=
  match d with
  | [] => [(k, v)]
  | (k', v') :: rest =>
      if String.eqb k k' then (k', v) :: rest else (k', v') :: setitem rest k v
  end.

(** Truth value of an object, as tested by [if date_str:]. *)
Definition truthy (v : pyval) : bool :=
  match v with
  | PNone => false
  | PBool b => b
  | PInt z => negb (z =? 0)
  | PFloat (S754_zero _) => false
  | PFloat _ => true
  | PStr s => negb (String.eqb s "")
  | PList l => match l with [] => false | _ => true end
  | PDict d => match d with [] => false | _ => true end
  end.

(** [d.get(k)] as a value. *)
Definition get (d : dict) (k : string) : pyval :=
  match lookup k d with Some v => v | None => PNone end.

Definition is_None (v : pyval) : bool :=
  match v with PNone => true | _ => false end.

(** ** Exceptions

    Every class below derives from [Exception]; signals and task
    cancellation, which do not, are outside the model.  [except C] selects
    by [isinstance], so the classes come with their subclass relation. *)
Inductive exc_class : Type :=
| KeyError
| TypeError
| ValueError
| AttributeError
| OverflowError
| JSONDecodeError          (* json.JSONDecodeError, a ValueError *)
| RequestException         (* requests.exceptions.RequestException *)
| ConnectionError          (* requests.exceptions.ConnectionError *)
| Timeout                  (* requests.exceptions.Timeout *)
| HTTPError                (* requests.exceptions.HTTPError *)
| RequestsJSONDecodeError  (* requests.exceptions.JSONDecodeError: both an
                              InvalidJSONError and a json.JSONDecodeError *)
| OtherException (name : string).

Record exn : Type := { exc_type : exc_class; exc_str : string }.

Inductive handler_class : Type :=
| CatchRequestException
| CatchValueError
| CatchException.

(** [isinstance(e, C)] for the three classes named in [except] clauses. *)
Definition isinstance (e : exn) (c : handler_class) : bool :=
  match c, exc_type e with
  | CatchException, _ => true
  | CatchRequestException,
    (RequestException | ConnectionError | Timeout | HTTPError
     | RequestsJSONDecodeError) => true
  | CatchValueError,
    (ValueError | JSONDecodeError | RequestsJSONDecodeError) => true
  | _, _ => false
  end.

Inductive res (A : Type) : Type :=
| Ret (a : A)
| Raise (e : exn).
Arguments Ret {A} a.
Arguments Raise {A} e.

Definition throw {A : Type} (c : exc_class) (msg : string) : res A :=
  Raise {| exc_type := c; exc_str := msg |}.

Definition res_bind {A B : Type} (r : res A) (k : A -> res B) : res B :=
  match r with
  | Ret a => k a
  | Raise e => Raise e
  end.

Notation "'let*' x ':=' r 'in' k" := (res_bind r (fun x => k))
  (at level 10, x name, r at level 100, k at level 200).

(** ** Operations on values that can raise *)

(** [v[k]] with a string key.  The keys the server looks up are plain
    identifiers, so the [repr] that a [KeyError] shows is the key in single
    quotes. *)
Definition getitem (v : pyval) (k : string) : res pyval :=
  match v with
  | PDict d =>
      match lookup k d with
      | Some x => Ret x
      | None => throw KeyError ("'" ++ k ++ "'")
      end
  | PStr _ => throw TypeError "string indices must be integers, not 'str'"
  | PList _ => throw TypeError "list indices must be integers or slices, not str"
  | _ => throw TypeError ("'" ++ type_name v ++ "' object is not subscriptable")
  end.

(** [k in v] with a string [k]: key membership for a dict, element
    membership for a list, substring test for a string. *)
Definition contains (k : string) (v : pyval) : res bool :=
  match v with
  | PDict d => Ret (has_key k d)
  | PList l =>
      Ret (existsb (fun x => match x with
                             | PStr s => String.eqb s k
                             | _ => false
                             end) l)
  | PStr s => Ret (is_substring k s)
  | _ => throw TypeError ("argument of type '" ++ type_name v ++ "' is not iterable")
  end.

(** [v.items()]. *)
Definition items (v : pyval) : res (list (string * pyval)) :=
  match v with
  | PDict d => Ret d
  | _ => throw AttributeError
           ("'" ++ type_name v ++ "' object has no attribute 'items'")
  end.

Definition is_dict (v : pyval) : bool :=
  match v with PDict _ => true | _ => false end.

(** ** Numbers

    Python compares an [int] with a [float], and two floats, by their exact
    values; a NaN is unordered with everything.  [bool] is a subclass of
    [int] with [True = 1] and [False = 0]. *)
Definition prec64 : Z := 53.
Definition emax64 : Z := 1024.

(** [float(z)]: the nearest binary64, ties to even. *)
Definition float_of_int (z : Z) : spec_float :=
  binary_normalize prec64 emax64 z 0 false.

(** The exact value of a finite float, [(-1)^s * m * 2^e], as a fraction. *)
Definition SF2Q (f : spec_float) : Q :=
  match f with
  | S754_finite s m e =>
      let n := if s then Z.neg m else Z.pos m in
      match e with
      | Z0 => Qmake n 1
      | Z.pos p => Qmake (n * Z.pow_pos 2 p) 1
      | Z.neg p => Qmake n (Pos.pow 2 p)
      end
  | _ => 0%Q
  end.

Inductive number : Type :=
| NumInt (z : Z)
| NumFloat (f : spec_float).

Definition as_number (v : pyval) : option number :=
  match v with
  | PBool b => Some (NumInt (if b then 1 else 0))
  | PInt z => Some (NumInt z)
  | PFloat f => Some (NumFloat f)
  | _ => None
  end.

(** Exact comparison of a float with an integer. *)
Definition float_int_compare (f : spec_float) (z : Z) : option comparison :=
  match f with
  | S754_nan => None
  | S754_infinity s => Some (if s then Lt else Gt)
  | S754_zero _ => Some (0 ?= z)
  | S754_finite _ _ _ => Some (Qcompare (SF2Q f) (inject_Z z))
  end.

Definition num_compare (a b : number) : option comparison :=
  match a, b with
  | NumInt x, NumInt y => Some (x ?= y)
  | NumFloat f, NumFloat g => SFcompare f g
  | NumFloat f, NumInt z => float_int_compare f z
  | NumInt z, NumFloat f => option_map CompOpp (float_int_compare f z)
  end.

Definition unsupported {A : Type} (op : string) (a b : pyval) : res A :=
  throw TypeError
    ("'" ++ op ++ "' not supported between instances of '" ++
     type_name a ++ "' and '" ++ type_name b ++ "'").

(** [a <= b]. *)
Definition py_le (a b : pyval) : res bool :=
  match as_number a, as_number b with
  | Some x, Some y =>
      Ret (match num_compare x y with Some (Lt | Eq) => true | _ => false end)
  | _, _ => unsupported "<=" a b
  end.

(** [a < b]. *)
Definition py_lt (a b : pyval) : res bool :=
  match as_number a, as_number b with
  | Some x, Some y =>
      Ret (match num_compare x y with Some Lt => true | _ => false end)
  | _, _ => unsupported "<" a b
  end.

(** Nearest integer to [n / d] for [d > 0], ties to the even one. *)
Definition round_half_even (n d : Z) : Z :=
  let q := n / d in
  match (2 * (n mod d) ?= d) with
  | Lt => q
  | Gt => q + 1
  | Eq => if Z.even q then q else q + 1
  end.

(** [format(f, ".2f")] for a float: the exact binary value correctly rounded
    to two decimals; the sign is kept even when the digits are all zero. *)
Definition float_format_2f (f : spec_float) : string :=
  match f with
  | S754_nan => "nan"
  | S754_infinity s => if s then "-inf" else "inf"
  | S754_zero s => if s then "-0.00" else "0.00"
  | S754_finite s m e =>
      let hundredths :=
        match e with
        | Z.neg p => round_half_even (100 * Z.pos m) (Z.pow_pos 2 p)
        | _ => 100 * Z.pos m * 2 ^ e
        end in
      (if s then "-" else "") ++
      str_of_int (hundredths / 100) ++ "." ++ pad2 (hundredths mod 100)
  end.

(** [format(v, ".2f")] for any value.  An [int] is converted to [float]
    first, which overflows beyond the binary64 range. *)
Definition format_2f (v : pyval) : res string :=
  match v with
  | PFloat f => Ret (float_format_2f f)
  | PInt _ | PBool _ =>
      let z := match v with PInt z => z | PBool true => 1 | _ => 0 end in
      match float_of_int z with
      | S754_infinity _ => throw OverflowError "int too large to convert to float"
      | f => Ret (float_format_2f f)
      end
  | PStr _ => throw ValueError "Unknown format code 'f' for object of type 'str'"
  | _ => throw TypeError
           ("unsupported format string passed to " ++ type_name v ++ ".__format__")
  end.

(** The float literals of the compass test: [n / 2] degrees is exactly
    representable for every boundary used. *)
Definition half_degrees (n : Z) : spec_float :=
  binary_normalize prec64 emax64 n (-1) false.
Arguments half_degrees : simpl never.

(** ** Dates

    [datetime.date], [datetime.datetime.strptime(s, "%Y-%m-%d")] and
    [date.strftime("%d-%m-%Y")]. *)
Record date : Type := { year : Z; month : Z; day : Z }.

Definition is_leap (y : Z) : bool :=
  ((y mod 4 =? 0) && negb (y mod 100 =? 0)) || (y mod 400 =? 0).

Definition days_in_month (y m : Z) : Z :=
  if m =? 2 then (if is_leap y then 29 else 28)
  else if (m =? 4) || (m =? 6) || (m =? 9) || (m =? 11) then 30
  else 31.

(** The dates [datetime.date] can hold. *)
Definition valid_date (d : date) : bool :=
  (1 <=? year d) && (year d <=? 9999) &&
  (1 <=? month d) && (month d <=? 12) &&
  (1 <=? day d) && (day d <=? days_in_month (year d) (month d)).

(** [date.strftime("%d-%m-%Y")].  [%d] and [%m] are two digits; [%Y] is the
    year in decimal as the C library prints it, four digits from year 1000
    on. *)
Definition strftime (d : date) : string :=
  pad2 (day d) ++ "-" ++ pad2 (month d) ++ "-" ++ str_of_int (year d).

Definition in_range (lo hi c : ascii) : bool :=
  (nat_of_ascii lo <=? nat_of_ascii c)%nat && (nat_of_ascii c <=? nat_of_ascii hi)%nat.

Definition is_digit (c : ascii) : bool := in_range "0" "9" c.

Definition digit_val (c : ascii) : Z := Z.of_nat (nat_of_ascii c) - 48.

(** First alternative that matches, as a backtracking matcher tries them. *)
Definition orelse {A : Type} (a b : option A) : option A :=
  match a with Some _ => a | None => b end.

(** The first code point of a UTF-8 text and the rest of the text; nothing
    for an empty text or a sequence that is not well formed (overlong forms
    and surrogates are not). *)
Definition continuation (c : ascii) : option Z :=
  let b := Z.of_nat (nat_of_ascii c) in
  if (128 <=? b) && (b <=? 191) then Some (b - 128) else None.

Definition utf8_decode (s : string) : option (Z * string) :=
  match s with
  | EmptyString => None
  | String c0 r0 =>
      let b0 := Z.of_nat (nat_of_ascii c0) in
      if b0 <? 128 then Some (b0, r0)
      else if (194 <=? b0) && (b0 <=? 223) then
        match r0 with
        | String c1 r1 =>
            match continuation c1 with
            | Some x1 => Some ((b0 - 192) * 64 + x1, r1)
            | None => None
            end
        | _ => None
        end
      else if (224 <=? b0) && (b0 <=? 239) then
        match r0 with
        | String c1 (String c2 r2) =>
            match continuation c1, continuation c2 with
            | Some x1, Some x2 =>
                let cp := (b0 - 224) * 4096 + x1 * 64 + x2 in
                if (2048 <=? cp) && negb ((55296 <=? cp) && (cp <=? 57343))
                then Some (cp, r2) else None
            | _, _ => None
            end
        | _ => None
        end
      else if (240 <=? b0) && (b0 <=? 244) then
        match r0 with
        | String c1 (String c2 (String c3 r3)) =>
            match continuation c1, continuation c2, continuation c3 with
            | Some x1, Some x2, Some x3 =>
                let cp := (b0 - 240) * 262144 + x1 * 4096 + x2 * 64 + x3 in
                if (65536 <=? cp) && (cp <=? 1114111) then Some (cp, r3) else None
            | _, _, _ => None
            end
        | _ => None
        end
      else None
  end.

(** The decimal digits of Unicode (category Nd, Unicode 14.0 as in CPython
    3.11) come in 66 blocks of ten consecutive code points, zero to nine;
    these are the code points of the zeros. *)
Definition decimal_zeros : list Z :=
  [48; 1632; 1776; 1984; 2406; 2534; 2662; 2790; 2918; 3046; 3174; 3302;
   3430; 3558; 3664; 3792; 3872; 4160; 4240; 6112; 6160; 6470; 6608; 6784;
   6800; 6992; 7088; 7232; 7248; 42528; 43216; 43264; 43472; 43504; 43600;
   44016; 65296; 66720; 68912; 69734; 69872; 69942; 70096; 70384; 70736;
   70864; 71248; 71360; 71472; 71904; 72016; 72784; 73040; 73120; 92768;
   92864; 93008; 120782; 120792; 120802; 120812; 120822; 123200; 123632;
   125264; 130032].

(** The value of a code point as a decimal digit, which is what [int]
    reads it as. *)
Definition decimal_value (cp : Z) : option Z :=
  match find (fun zero => (zero <=? cp) && (cp <=? zero + 9)) decimal_zeros with
  | Some zero => Some (cp - zero)
  | None => None
  end.

(** [strptime] compiles the format ["%Y-%m-%d"] to the regular expression
    [(?P<Y>\d\d\d\d)-(?P<m>1[0-2]|0[1-9]|[1-9])-(?P<d>3[0-1]|[1-2]\d|0[1-9]|[1-9]| [1-9])]
    and applies it with [match], anchored at the start only.  Each piece
    below takes the rest of the expression as a continuation, which gives
    the alternatives their backtracking order.  On a [str], [\d] matches
    any Unicode decimal digit, and [int] reads the matched digits by their
    decimal values; the bracketed classes are ASCII. *)
Definition re_digit {A : Type} (k : Z -> string -> option A) (s : string) : option A :=
  match utf8_decode s with
  | Some (cp, r) =>
      match decimal_value cp with
      | Some v => k v r
      | None => None
      end
  | None => None
  end.

Definition re_Y {A : Type} (k : Z -> string -> option A) (s : string) : option A :=
  re_digit (fun a =>
  re_digit (fun b =>
  re_digit (fun c =>
  re_digit (fun d => k (1000 * a + 100 * b + 10 * c + d))))) s.

Definition re_dash {A : Type} (k : string -> option A) (s : string) : option A :=
  match s with
  | String "-" r => k r
  | _ => None
  end.

Definition re_m {A : Type} (k : Z -> string -> option A) (s : string) : option A :=
  orelse
    (match s with
     | String "1" (String c r) =>
         if in_range "0" "2" c then k (10 + digit_val c) r else None
     | _ => None
     end)
    (orelse
       (match s with
        | String "0" (String c r) =>
            if in_range "1" "9" c then k (digit_val c) r else None
        | _ => None
        end)
       (match s with
        | String c r => if in_range "1" "9" c then k (digit_val c) r else None
        | _ => None
        end)).

Definition re_d {A : Type} (k : Z -> string -> option A) (s : string) : option A :=
  orelse
    (match s with
     | String "3" (String c r) =>
         if in_range "0" "1" c then k (30 + digit_val c) r else None
     | _ => None
     end)
    (orelse
       (match s with
        | String t r =>
            if in_range "1" "2" t
            then re_digit (fun v => k (10 * digit_val t + v)) r else None
        | _ => None
        end)
       (orelse
          (match s with
           | String "0" (String c r) =>
               if in_range "1" "9" c then k (digit_val c) r else None
           | _ => None
           end)
          (orelse
             (match s with
              | String c r => if in_range "1" "9" c then k (digit_val c) r else None
              | _ => None
              end)
             (match s with
              | String " " (String c r) =>
                  if in_range "1" "9" c then k (digit_val c) r else None
              | _ => None
              end)))).

(** [-(?P<m>...)-(?P<d>...)]: month, day and the unmatched rest. *)
Definition re_month_day (s : string) : option (Z * Z * string) :=
  re_dash (re_m (fun m => re_dash (re_d (fun d r => Some (m, d, r))))) s.

(** The whole expression: year, month, day and the unmatched rest.  The
    year has a single way to match, so nothing backtracks into it. *)
Definition re_date (s : string) : option (Z * Z * Z * string) :=
  re_Y (fun y r =>
          match re_month_day r with
          | Some (m, d, r') => Some (y, m, d, r')
          | None => None
          end) s.

(** ** Effects

    One tool call may perform HTTP requests.  A computation threads the log
    of the requests sent so far and ends in a value or in an exception. *)
Record request : Type :=
  { req_url : string; req_params : option dict; req_timeout : Z }.

(** A [requests.Response], seen through the two methods the client calls. *)
Record response : Type :=
  { raise_for_status : res unit; json : res pyval }.

(** The response as it comes over the wire.  The body is a text that is a
    JSON document, given by the value [json.loads] reads from it, or a text
    that [json.loads] rejects, given by the message of the rejection. *)
Inductive http_body : Type :=
| JsonText (v : pyval)
| NotJson (msg : string).

Record http_response : Type :=
  { status_code : Z; reason : string; url : string; body : http_body }.

(** [Response.raise_for_status]: an [HTTPError] for a status from 400 to
    599, nothing otherwise. *)
Definition http_error (h : http_response) : exn :=
  {| exc_type := HTTPError;
     exc_str := str_of_int (status_code h) ++
                (if status_code h <? 500 then " Client Error: "
                 else " Server Error: ") ++
                reason h ++ " for url: " ++ url h |}.

Definition is_error_status (status : Z) : bool :=
  (400 <=? status) && (status <? 600).

(** The [requests.Response] of an HTTP response.  [Response.json] reports
    a body that is not JSON with [requests.exceptions.JSONDecodeError],
    built from the decoder's message. *)
Definition response_of (h : http_response) : response :=
  {| raise_for_status :=
       if is_error_status (status_code h) then Raise (http_error h) else Ret tt;
     json :=
       match body h with
       | JsonText v => Ret v
       | NotJson msg => throw RequestsJSONDecodeError msg
       end |}.

(** What a tool call reads from outside: the local calendar date and the
    behaviour of [requests.get]. *)
Record world : Type :=
  { today : date; requests_get : request -> res response }.

Definition M (A : Type) : Type := list request -> res A * list request.

Definition ret {A : Type} (a : A) : M A := fun log => (Ret a, log).

Definition bind {A B : Type} (m : M A) (k : A -> M B) : M B :=
  fun log =>
    match m log with
    | (Ret a, log') => k a log'
    | (Raise e, log') => (Raise e, log')
    end.

Definition lift {A : Type} (r : res A) : M A := fun log => (r, log).

Notation "x <- m ;; k" := (bind m (fun x => k))
  (at level 61, m at next level, right associativity).
Notation "x <~ r ;; k" := (bind (lift r) (fun x => k))
  (at level 61, r at next level, right associativity).

(** [requests.get(url, params=params, timeout=timeout)]. *)
Definition http_get (w : world) (rq : request) : M response :=
  fun log => (requests_get w rq, (log ++ [rq])%list).

(** The first [except] clause whose class the exception is an instance of. *)
Fixpoint select_handler {A : Type}
    (clauses : list (handler_class * (exn -> M A))) (e : exn) : option (exn -> M A) :=
  match clauses with
  | [] => None
  | (c, h) :: rest => if isinstance e c then Some h else select_handler rest e
  end.

(** [try: body  except C1 as e: h1  except C2 as e: h2 ...]; an exception
    that no clause selects propagates. *)
Definition try_except {A : Type} (body : M A)
    (clauses : list (handler_class * (exn -> M A))) : M A :=
  fun log =>
    match body log with
    | (Ret a, log') => (Ret a, log')
    | (Raise e, log') =>
        match select_handler clauses e with
        | Some h => h e log'
        | None => (Raise e, log')
        end
    end.

(** ** The server *)

Record TextContent : Type := { type : string; text : string }.

Definition text_reply (t : string) : list TextContent :=
  [{| type := "text"; text := t |}].

Definition ALADHAN_API_BASE_URL : string := "http://api.aladhan.com/v1".

(** *** [handle_list_tools] (lines 42-152)

    A tool descriptor; [inputSchema] is the JSON schema as the source
    writes it, a dictionary literal. *)
Record Tool : Type :=
  { name : string; description : string; inputSchema : pyval }.

Definition date_property (text pattern : string) : string * pyval :=
  ("date", PDict [("type", PStr "string");
                  ("description", PStr text);
                  ("pattern", PStr pattern)]).

Definition method_property : string * pyval :=
  ("method", PDict [("type", PStr "integer");
                    ("description", PStr "Calculation method ID (optional, 1-15)")]).

Definition school_property : string * pyval :=
  ("school",
   PDict [("type", PStr "integer");
          ("enum", PList [PInt 0; PInt 1]);
          ("description",
           PStr "Asr juristic method: 0 for Shafi, 1 for Hanafi (optional)")]).

Definition coordinate_properties : list (string * pyval) :=
  [("latitude", PDict [("type", PStr "number");
                       ("description", PStr "Latitude of the location")]);
   ("longitude", PDict [("type", PStr "number");
                        ("description", PStr "Longitude of the location")])].

Definition handle_list_tools : list Tool :=
  [ {| name := "get_prayer_times_by_city";
       description := "Get Islamic prayer times for a specific city and date";
       inputSchema :=
         PDict [("type", PStr "object");
                ("properties",
                 PDict [("city", PDict [("type", PStr "string");
                                        ("description",
                                         PStr "Name of the city (e.g., London)")]);
                        ("country", PDict [("type", PStr "string");
                                           ("description",
                                            PStr "Name of the country (e.g., UK)")]);
                        date_property
                          "Date in YYYY-MM-DD format (optional, defaults to today)"
                          "^\d{4}-\d{2}-\d{2}$";
                        method_property; school_property]);
                ("required", PList [PStr "city"; PStr "country"])] |};
    {| name := "get_prayer_times_by_coordinates";
       description :=
         "Get Islamic prayer times for specific geographic coordinates and date";
       inputSchema :=
         PDict [("type", PStr "object");
                ("properties",
                 PDict (coordinate_properties ++
                        [date_property
                           "Date in YYYY-MM-DD format (optional, defaults to today)"
                           "^\d{4}-\d{2}-\d{2}$";
                         method_property; school_property]));
                ("required", PList [PStr "latitude"; PStr "longitude"])] |};
    {| name := "convert_gregorian_to_hijri";
       description := "Convert a Gregorian date to Hijri (Islamic) date";
       inputSchema :=
         PDict [("type", PStr "object");
                ("properties",
                 PDict [date_property
                          "Gregorian date in DD-MM-YYYY format (e.g., 20-07-2024)"
                          "^\d{2}-\d{2}-\d{4}$"]);
                ("required", PList [PStr "date"])] |};
    {| name := "get_qibla_direction";
       description :=
         "Get the Qibla direction (degrees from North) for given coordinates";
       inputSchema :=
         PDict [("type", PStr "object");
                ("properties", PDict coordinate_properties);
                ("required", PList [PStr "latitude"; PStr "longitude"])] |};
    {| name := "get_calculation_methods";
       description := "Get available prayer time calculation methods";
       inputSchema :=
         PDict [("type", PStr "object");
                ("properties", PDict []);
                ("additionalProperties", PBool false)] |} ].

(** The label map of lines 194-202 and 247-255. *)
Definition prayer_names : list (string * string) :=
  [ ("Fajr", "🌅 Fajr (Dawn)");
    ("Sunrise", "☀️ Sunrise");
    ("Dhuhr", "🌞 Dhuhr (Noon)");
    ("Asr", "🌤️ Asr (Afternoon)");
    ("Sunset", "🌇 Sunset");
    ("Maghrib", "🌆 Maghrib (Evening)");
    ("Isha", "🌙 Isha (Night)") ].

Section Runtime.

(** [repr] of a float (the shortest decimal that reads back as the same
    double) and of a string (quoted and escaped) are the interpreter's. *)
Variable repr_float : spec_float -> string.
Variable repr_str : string -> string.

Fixpoint py_repr (v : pyval) : string :=
  match v with
  | PNone => "None"
  | PBool b => if b then "True" else "False"
  | PInt z => str_of_int z
  | PFloat f => repr_float f
  | PStr s => repr_str s
  | PList l => "[" ++ join ", " (map py_repr l) ++ "]"
  | PDict d =>
      "{" ++ join ", " (map (fun kv => let '(k, x) := kv in
                                       repr_str k ++ ": " ++ py_repr x) d) ++ "}"
  end.

(** [str(v)], which is what a replacement field [{v}] of an f-string prints. *)
Definition py_str (v : pyval) : string :=
  match v with
  | PStr s => s
  | _ => py_repr v
  end.

(** [datetime.datetime.strptime(date_str, "%Y-%m-%d").date()]. *)
Definition strptime (date_str : pyval) : res date :=
  match date_str with
  | PStr s =>
      match re_date s with
      | None =>
          throw ValueError
            ("time data " ++ repr_str s ++ " does not match format '%Y-%m-%d'")
      | Some (y, m, d, rest) =>
          if String.eqb rest "" then
            if y =? 0 then throw ValueError "year 0 is out of range"
            else if d <=? days_in_month y m
                 then Ret {| year := y; month := m; day := d |}
                 else throw ValueError "day is out of range for month"
          else throw ValueError ("unconverted data remains: " ++ rest)
      end
  | _ => throw TypeError
           ("strptime() argument 1 must be str, not " ++ type_name date_str)
  end.

(** *** [call_aladhan_api] (lines 30-40) *)

(** Lines 33-34: the GET that goes out. *)
Definition api_request (endpoint : string) (params : option dict) : request :=
  let url := ALADHAN_API_BASE_URL ++ "/" ++ endpoint in
  {| req_url := url; req_params := params; req_timeout := 10 |}.

Definition call_aladhan_api (w : world) (endpoint : string) (params : option dict)
  : M pyval :=
  try_except
    (response <- http_get w (api_request endpoint params) ;;
     _ <~ raise_for_status response ;;
     lift (json response))
    [ (CatchRequestException,
       fun e => ret (PDict [("error", PStr (exc_str e));
                            ("details", PStr "Failed to connect to Aladhan API")]));
      (CatchValueError,
       fun _ => ret (PDict [("error", PStr "Invalid JSON response from Aladhan API")])) ].

(** *** [handle_call_tool] (lines 154-357)

    The two prayer-time branches are the same code up to the location
    header and the request; the shared steps are defined once. *)

(** Lines 166-172 and 219-225: the date sent upstream. *)
Definition api_date (w : world) (date_str : pyval) : res string :=
  let* date_obj := (if truthy date_str then strptime date_str else Ret (today w)) in
  Ret (strftime date_obj).

(** Lines 176-179 and 229-232: the optional query parameters. *)
Definition add_optional (params : dict) (method school : pyval) : dict :=
  let params := if is_None method then params else setitem params "method" method in
  if is_None school then params else setitem params "school" school.

(** The date line of lines 192 and 245. *)
Definition date_line (date_info : pyval) : res string :=
  let* readable := getitem date_info "readable" in
  let* hijri := getitem date_info "hijri" in
  let* hijri_date := getitem hijri "date" in
  let* hijri := getitem date_info "hijri" in
  let* hijri_month := getitem hijri "month" in
  let* month_en := getitem hijri_month "en" in
  let* hijri := getitem date_info "hijri" in
  let* hijri_year := getitem hijri "year" in
  Ret ("📅 Date: " ++ py_str readable ++ " (" ++ py_str hijri_date ++ " " ++
       py_str month_en ++ " " ++ py_str hijri_year ++ " AH)" ++ nl ++ nl).

(** The loop of lines 204-206 and 257-259 over [timings.items()]. *)
Fixpoint prayer_lines (its : list (string * pyval)) (response : string) : string :=
  match its with
  | [] => response
  | (prayer, time) :: rest =>
      prayer_lines rest
        (match lookup prayer prayer_names with
         | Some label => response ++ label ++ ": " ++ py_str time ++ nl
         | None => response
         end)
  end.

(** Lines 183-210 and 236-263, given the location header. *)
Definition render_prayer_times (header : string) (result : pyval)
  : res (list TextContent) :=
  let* has_error := contains "error" result in
  if has_error then
    let* err := getitem result "error" in
    Ret (text_reply ("Error: " ++ py_str err))
  else
    let* has_data := contains "data" result in
    let* has_timings :=
      (if has_data then
         let* data := getitem result "data" in contains "timings" data
       else Ret false) in
    if has_timings then
      let* data := getitem result "data" in
      let* timings := getitem data "timings" in
      let* date_info := getitem data "date" in
      let response := header in
      let* line := date_line date_info in
      let response := response ++ line in
      let* its := items timings in
      Ret (text_reply (prayer_lines its response))
    else Ret (text_reply "No prayer time data found in response").

(** Lines 159-210. *)
Definition get_prayer_times_by_city (w : world) (arguments : dict)
  : M (list TextContent) :=
  city <~ getitem (PDict arguments) "city" ;;
  country <~ getitem (PDict arguments) "country" ;;
  let date_str := get arguments "date" in
  let method := get arguments "method" in
  let school := get arguments "school" in
  api_date_str <~ api_date w date_str ;;
  let params := add_optional [("city", city); ("country", country)] method school in
  result <- call_aladhan_api w ("timingsByCity/" ++ api_date_str) (Some params) ;;
  lift (render_prayer_times
          ("🕌 Prayer Times for " ++ py_str city ++ ", " ++ py_str country ++ nl)
          result).

(** Lines 212-263. *)
Definition get_prayer_times_by_coordinates (w : world) (arguments : dict)
  : M (list TextContent) :=
  latitude <~ getitem (PDict arguments) "latitude" ;;
  longitude <~ getitem (PDict arguments) "longitude" ;;
  let date_str := get arguments "date" in
  let method := get arguments "method" in
  let school := get arguments "school" in
  api_date_str <~ api_date w date_str ;;
  let params :=
    add_optional [("latitude", latitude); ("longitude", longitude)] method school in
  result <- call_aladhan_api w ("timings/" ++ api_date_str) (Some params) ;;
  lift (render_prayer_times
          ("🕌 Prayer Times for coordinates (" ++ py_str latitude ++ ", " ++
           py_str longitude ++ ")" ++ nl)
          result).

(** Lines 270-285. *)
Definition render_hijri (result : pyval) : res (list TextContent) :=
  let* has_error := contains "error" result in
  if has_error then
    let* err := getitem result "error" in
    Ret (text_reply ("Error: " ++ py_str err))
  else
    let* has_data := contains "data" result in
    let* has_hijri :=
      (if has_data then
         let* data := getitem result "data" in contains "hijri" data
       else Ret false) in
    if has_hijri then
      let* data := getitem result "data" in
      let* hijri := getitem data "hijri" in
      let* data := getitem result "data" in
      let* gregorian := getitem data "gregorian" in
      let response := "📅 Date Conversion" ++ nl ++ nl in
      let* g_date := getitem gregorian "date" in
      let* g_month := getitem gregorian "month" in
      let* g_month_en := getitem g_month "en" in
      let* g_year := getitem gregorian "year" in
      let response := response ++ "Gregorian: " ++ py_str g_date ++ " " ++
                      py_str g_month_en ++ " " ++ py_str g_year ++ nl in
      let* h_date := getitem hijri "date" in
      let* h_month := getitem hijri "month" in
      let* h_month_en := getitem h_month "en" in
      let* h_year := getitem hijri "year" in
      let response := response ++ "Hijri: " ++ py_str h_date ++ " " ++
                      py_str h_month_en ++ " " ++ py_str h_year ++ " AH" ++ nl in
      let* h_month := getitem hijri "month" in
      let* h_month_ar := getitem h_month "ar" in
      let* h_month := getitem hijri "month" in
      let* h_month_en := getitem h_month "en" in
      let response := response ++ "Islamic Month: " ++ py_str h_month_ar ++ " (" ++
                      py_str h_month_en ++ ")" ++ nl in
      let* h_weekday := getitem hijri "weekday" in
      let* h_weekday_en := getitem h_weekday "en" in
      let response := response ++ "Weekday: " ++ py_str h_weekday_en ++ nl in
      Ret (text_reply response)
    else Ret (text_reply "No date conversion data found").

(** Lines 265-285. *)
Definition convert_gregorian_to_hijri (w : world) (arguments : dict)
  : M (list TextContent) :=
  date_str <~ getitem (PDict arguments) "date" ;;
  result <- call_aladhan_api w "gToH" (Some [("date", date_str)]) ;;
  lift (render_hijri result).

(** Lines 304-319: the compass label of a bearing.  [a <= x < b] is
    [a <= x and x < b], and both [or] and [and] evaluate their right operand
    only when needed.  The bounds are given in half degrees. *)
Definition between (lo : Z) (direction : pyval) (hi : Z) : res bool :=
  let* above := py_le (PFloat (half_degrees lo)) direction in
  if above then py_lt direction (PFloat (half_degrees hi)) else Ret false.

Definition compass_of (direction : pyval) : res string :=
  (* if 337.5 <= direction or direction < 22.5 *)
  let* north1 := py_le (PFloat (half_degrees 675)) direction in
  let* north := (if north1 then Ret true
                 else py_lt direction (PFloat (half_degrees 45))) in
  if north then Ret "North" else
  (* elif 22.5 <= direction < 67.5 *)
  let* b := between 45 direction 135 in
  if b then Ret "Northeast" else
  (* elif 67.5 <= direction < 112.5 *)
  let* b := between 135 direction 225 in
  if b then Ret "East" else
  (* elif 112.5 <= direction < 157.5 *)
  let* b := between 225 direction 315 in
  if b then Ret "Southeast" else
  (* elif 157.5 <= direction < 202.5 *)
  let* b := between 315 direction 405 in
  if b then Ret "South" else
  (* elif 202.5 <= direction < 247.5 *)
  let* b := between 405 direction 495 in
  if b then Ret "Southwest" else
  (* elif 247.5 <= direction < 292.5 *)
  let* b := between 495 direction 585 in
  if b then Ret "West" else
  Ret "Northwest".

(** Lines 293-325. *)
Definition render_qibla (latitude longitude result : pyval) : res (list TextContent) :=
  let* has_error := contains "error" result in
  if has_error then
    let* err := getitem result "error" in
    Ret (text_reply ("Error: " ++ py_str err))
  else
    let* has_data := contains "data" result in
    let* has_direction :=
      (if has_data then
         let* data := getitem result "data" in contains "direction" data
       else Ret false) in
    if has_direction then
      let* data := getitem result "data" in
      let* direction := getitem data "direction" in
      let response := "🧭 Qibla Direction" ++ nl ++ nl in
      let response := response ++ "📍 Location: (" ++ py_str latitude ++ ", " ++
                      py_str longitude ++ ")" ++ nl in
      let* bearing := format_2f direction in
      let response := response ++ "🕋 Qibla Direction: " ++ bearing ++
                      "° from North" ++ nl ++ nl in
      let* compass := compass_of direction in
      let response := response ++ "Compass Direction: " ++ compass in
      Ret (text_reply response)
    else Ret (text_reply "No Qibla direction data found").

(** Lines 287-325. *)
Definition get_qibla_direction (w : world) (arguments : dict)
  : M (list TextContent) :=
  latitude <~ getitem (PDict arguments) "latitude" ;;
  longitude <~ getitem (PDict arguments) "longitude" ;;
  result <- call_aladhan_api w
              ("qibla/" ++ py_str latitude ++ "/" ++ py_str longitude) None ;;
  lift (render_qibla latitude longitude result).

(** Lines 339-347: the body of the loop over [methods.items()]. *)
Definition method_block (method_id : string) (method_info : pyval) (response : string)
  : res string :=
  let* named := (if is_dict method_info then contains "name" method_info
                 else Ret false) in
  if named then
    let* name := getitem method_info "name" in
    let response := response ++ method_id ++ ". " ++ py_str name ++ nl in
    let* has_params := contains "params" method_info in
    let* response :=
      (if has_params then
         let* params := getitem method_info "params" in
         let* has_fajr := contains "Fajr" params in
         let* response :=
           (if has_fajr then
              let* fajr := getitem params "Fajr" in
              Ret (response ++ "   - Fajr: " ++ py_str fajr ++ "°" ++ nl)
            else Ret response) in
         let* has_isha := contains "Isha" params in
         if has_isha then
           let* isha := getitem params "Isha" in
           Ret (response ++ "   - Isha: " ++ py_str isha ++ "°" ++ nl)
         else Ret response
       else Ret response) in
    Ret (response ++ nl)
  else Ret response.

(** Lines 338-347. *)
Fixpoint methods_loop (its : list (string * pyval)) (response : string) : res string :=
  match its with
  | [] => Ret response
  | (method_id, method_info) :: rest =>
      let* response := method_block method_id method_info response in
      methods_loop rest response
  end.

(** Lines 330-351. *)
Definition render_methods (result : pyval) : res (list TextContent) :=
  let* has_error := contains "error" result in
  if has_error then
    let* err := getitem result "error" in
    Ret (text_reply ("Error: " ++ py_str err))
  else
    let* has_data := contains "data" result in
    if has_data then
      let* methods := getitem result "data" in
      let response := "🕌 Prayer Time Calculation Methods" ++ nl ++ nl in
      let* its := items methods in
      let* response := methods_loop its response in
      Ret (text_reply response)
    else Ret (text_reply "No calculation methods data found").

(** Lines 327-351. *)
Definition get_calculation_methods (w : world) (arguments : dict)
  : M (list TextContent) :=
  result <- call_aladhan_api w "methods" None ;;
  lift (render_methods result).

(** Lines 159-354: the branch taken for each tool name. *)
Definition dispatch (w : world) (name : string) (arguments : dict)
  : M (list TextContent) :=
  if String.eqb name "get_prayer_times_by_city" then
    get_prayer_times_by_city w arguments
  else if String.eqb name "get_prayer_times_by_coordinates" then
    get_prayer_times_by_coordinates w arguments
  else if String.eqb name "convert_gregorian_to_hijri" then
    convert_gregorian_to_hijri w arguments
  else if String.eqb name "get_qibla_direction" then
    get_qibla_direction w arguments
  else if String.eqb name "get_calculation_methods" then
    get_calculation_methods w arguments
  else ret (text_reply ("Unknown tool: " ++ name)).

Definition handle_call_tool (w : world) (name : string) (arguments : dict)
  : M (list TextContent) :=
  try_except (dispatch w name arguments)
    [ (CatchException,
       fun e => ret (text_reply ("Error executing " ++ name ++ ": " ++ exc_str e))) ].

(** One invocation, started with an empty request log: what the caller
    receives and the requests that went out. *)
Definition call_tool (w : world) (name : string) (arguments : dict)
  : res (list TextContent) * list request :=
  handle_call_tool w name arguments [].

(** * Reference definitions

    What the specification says, stated on exact values and on the shape of
    the reply, for comparison with the code above. *)

(** ** Bearings as numbers *)

(** The value a Python number denotes: a rational, an infinity, or no value
    at all for a NaN. *)
Inductive xreal : Type :=
| XNaN
| XNegInf
| XFin (q : Q)
| XPosInf.

Definition number_value (n : number) : xreal :=
  match n with
  | NumInt z => XFin (inject_Z z)
  | NumFloat S754_nan => XNaN
  | NumFloat (S754_infinity s) => if s then XNegInf else XPosInf
  | NumFloat f => XFin (SF2Q f)
  end.

(** The signed mantissa of a finite float. *)
Definition signed (s : bool) (m : positive) : Z := if s then Z.neg m else Z.pos m.

(** What [json.loads] produces for a number is an [int] or a binary64. *)
Definition is_double (v : pyval) : bool :=
  match v with
  | PFloat f => valid_binary prec64 emax64 f
  | _ => true
  end.

Definition Qltb (x y : Q) : bool := negb (Qle_bool y x).

(** [x < q] and [q <= x] on the extended line; both fail for a NaN. *)
Definition x_ltb (x : xreal) (q : Q) : bool :=
  match x with
  | XFin v => Qltb v q
  | XNegInf => true
  | _ => false
  end.

Definition x_geb (x : xreal) (q : Q) : bool :=
  match x with
  | XFin v => Qle_bool q v
  | XPosInf => true
  | _ => false
  end.

(** The eight 45 degree sectors of the specification, with boundaries at
    22.5 degree steps and North wrapping across 0/360. *)
Definition compass_label (q : Q) : string :=
  if Qle_bool 337.5 q || Qltb q 22.5 then "North"
  else if Qle_bool 22.5 q && Qltb q 67.5 then "Northeast"
  else if Qle_bool 67.5 q && Qltb q 112.5 then "East"
  else if Qle_bool 112.5 q && Qltb q 157.5 then "Southeast"
  else if Qle_bool 157.5 q && Qltb q 202.5 then "South"
  else if Qle_bool 202.5 q && Qltb q 247.5 then "Southwest"
  else if Qle_bool 247.5 q && Qltb q 292.5 then "West"
  else if Qle_bool 292.5 q && Qltb q 337.5 then "Northwest"
  else "".

Definition compass_labels : list string :=
  ["North"; "Northeast"; "East"; "Southeast"; "South"; "Southwest"; "West";
   "Northwest"].

(** The branch structure of lines 304-319 read on values rather than on
    machine numbers. *)
Definition compass_of_value (x : xreal) : string :=
  if x_geb x 337.5 || x_ltb x 22.5 then "North"
  else if x_geb x 22.5 && x_ltb x 67.5 then "Northeast"
  else if x_geb x 67.5 && x_ltb x 112.5 then "East"
  else if x_geb x 112.5 && x_ltb x 157.5 then "Southeast"
  else if x_geb x 157.5 && x_ltb x 202.5 then "South"
  else if x_geb x 202.5 && x_ltb x 247.5 then "Southwest"
  else if x_geb x 247.5 && x_ltb x 292.5 then "West"
  else "Northwest".

(** The float a decimal literal [n / 10^k] of the source or of a JSON
    document denotes: the correctly rounded quotient. *)
Definition decimal_literal (n : Z) (k : Z) : spec_float :=
  SFdiv prec64 emax64 (float_of_int n) (float_of_int (10 ^ k)).

(** ** The client, request by request *)

Definition ok_response (v : pyval) : response :=
  {| raise_for_status := Ret tt; json := Ret v |}.

Definition error_record (e : exn) : pyval :=
  PDict [("error", PStr (exc_str e));
         ("details", PStr "Failed to connect to Aladhan API")].

Definition invalid_json_record : pyval :=
  PDict [("error", PStr "Invalid JSON response from Aladhan API")].

(** The two [except] clauses of the client, in order. *)
Definition recover (e : exn) : res pyval :=
  if isinstance e CatchRequestException then Ret (error_record e)
  else if isinstance e CatchValueError then Ret invalid_json_record
  else Raise e.

(** What [call_aladhan_api] returns for the request it sends. *)
Definition api_result (w : world) (rq : request) : res pyval :=
  match requests_get w rq with
  | Raise e => recover e
  | Ret response =>
      match raise_for_status response with
      | Raise e => recover e
      | Ret _ =>
          match json response with
          | Raise e => recover e
          | Ret v => Ret v
          end
      end
  end.

(** ** The handler as build, send, render

    Every branch of [dispatch] first builds a request from the arguments
    (which can raise), sends exactly that request, and renders the answer.
    [tool_plan] is this reading of the five branches; [None] stands for an
    unknown tool name. *)
Definition tool_plan (w : world) (name : string) (arguments : dict)
  : option (res (request * (pyval -> res (list TextContent)))) :=
  if String.eqb name "get_prayer_times_by_city" then
    Some (let* city := getitem (PDict arguments) "city" in
          let* country := getitem (PDict arguments) "country" in
          let* api_date_str := api_date w (get arguments "date") in
          Ret (api_request ("timingsByCity/" ++ api_date_str)
                 (Some (add_optional [("city", city); ("country", country)]
                          (get arguments "method") (get arguments "school"))),
               render_prayer_times
                 ("🕌 Prayer Times for " ++ py_str city ++ ", " ++
                  py_str country ++ nl)))
  else if String.eqb name "get_prayer_times_by_coordinates" then
    Some (let* latitude := getitem (PDict arguments) "latitude" in
          let* longitude := getitem (PDict arguments) "longitude" in
          let* api_date_str := api_date w (get arguments "date") in
          Ret (api_request ("timings/" ++ api_date_str)
                 (Some (add_optional
                          [("latitude", latitude); ("longitude", longitude)]
                          (get arguments "method") (get arguments "school"))),
               render_prayer_times
                 ("🕌 Prayer Times for coordinates (" ++ py_str latitude ++ ", " ++
                  py_str longitude ++ ")" ++ nl)))
  else if String.eqb name "convert_gregorian_to_hijri" then
    Some (let* date_str := getitem (PDict arguments) "date" in
          Ret (api_request "gToH" (Some [("date", date_str)]), render_hijri))
  else if String.eqb name "get_qibla_direction" then
    Some (let* latitude := getitem (PDict arguments) "latitude" in
          let* longitude := getitem (PDict arguments) "longitude" in
          Ret (api_request
                 ("qibla/" ++ py_str latitude ++ "/" ++ py_str longitude) None,
               render_qibla latitude longitude))
  else if String.eqb name "get_calculation_methods" then
    Some (Ret (api_request "methods" None, render_methods))
  else None.

(** The reply of the outer [except Exception] clause. *)
Definition executing_error (name : string) (e : exn) : list TextContent :=
  text_reply ("Error executing " ++ name ++ ": " ++ exc_str e).

(** A result that, when it is a value, is a single text block. *)
Definition single (r : res (list TextContent)) : Prop :=
  match r with
  | Ret reply => exists t, reply = text_reply t
  | Raise _ => True
  end.

Definition guarded (name : string) (r : res (list TextContent))
  : res (list TextContent) :=
  match r with
  | Ret reply => Ret reply
  | Raise e => Ret (executing_error name e)
  end.

(** ** Reference texts of the replies *)

(** The reply of lines 299-321 for a bearing printed as [bearing] and
    labelled [compass]. *)
Definition qibla_text (latitude longitude : pyval) (bearing compass : string)
  : string :=
  "🧭 Qibla Direction" ++ nl ++ nl ++
  "📍 Location: (" ++ py_str latitude ++ ", " ++ py_str longitude ++ ")" ++ nl ++
  "🕋 Qibla Direction: " ++ bearing ++ "° from North" ++ nl ++ nl ++
  "Compass Direction: " ++ compass.

Definition concat_lines (lines : list string) : string :=
  fold_right String.append "" lines.

(** The upstream answers every request with the JSON document [v]. *)
Definition answers (w : world) (v : pyval) : Prop :=
  forall rq, api_result w rq = Ret v.

Definition is_prayer_tool (name : string) : bool :=
  String.eqb name "get_prayer_times_by_city" ||
  String.eqb name "get_prayer_times_by_coordinates".

(** The location header of the two prayer-time tools (lines 191 and 244),
    defined when the tool's required arguments are present. *)
Definition prayer_header (name : string) (arguments : dict) : option string :=
  if String.eqb name "get_prayer_times_by_city" then
    match lookup "city" arguments, lookup "country" arguments with
    | Some city, Some country =>
        Some ("🕌 Prayer Times for " ++ py_str city ++ ", " ++ py_str country ++ nl)
    | _, _ => None
    end
  else if String.eqb name "get_prayer_times_by_coordinates" then
    match lookup "latitude" arguments, lookup "longitude" arguments with
    | Some latitude, Some longitude =>
        Some ("🕌 Prayer Times for coordinates (" ++ py_str latitude ++ ", " ++
              py_str longitude ++ ")" ++ nl)
    | _, _ => None
    end
  else None.

Definition is_known_prayer (item : string * pyval) : bool :=
  has_key (fst item) prayer_names.

(** The line of one entry of [timings]; no text for an unknown key. *)
Definition prayer_line (item : string * pyval) : string :=
  match lookup (fst item) prayer_names with
  | Some label => label ++ ": " ++ py_str (snd item) ++ nl
  | None => ""
  end.

(** The prayer lines as the specification orders them: the seven names in
    their fixed order, each with the time the mapping gives it. *)
Definition fixed_order_lines (timings : dict) : string :=
  concat_lines
    (map (fun entry : string * string =>
            match lookup (fst entry) timings with
            | Some time => snd entry ++ ": " ++ py_str time ++ nl
            | None => ""
            end) prayer_names).

(** The prayer lines in the order of the upstream mapping. *)
Definition upstream_order_lines (timings : dict) : string :=
  concat_lines (map prayer_line (filter is_known_prayer timings)).

Definition methods_header : string :=
  "🕌 Prayer Time Calculation Methods" ++ nl ++ nl.

(** An entry of the methods mapping that gets a block: a mapping with a
    [name] field. *)
Definition is_named (entry : string * pyval) : bool :=
  match snd entry with
  | PDict info => has_key "name" info
  | _ => false
  end.

Definition angle_line (key : string) (params : dict) : string :=
  match lookup key params with
  | Some angle => "   - " ++ key ++ ": " ++ py_str angle ++ "°" ++ nl
  | None => ""
  end.

(** The numbered block of a named entry: its name, then the Fajr and Isha
    angles that its [params] hold, then an empty line. *)
Definition method_text (entry : string * pyval) : string :=
  match snd entry with
  | PDict info =>
      match lookup "name" info with
      | Some name =>
          fst entry ++ ". " ++ py_str name ++ nl ++
          match lookup "params" info with
          | Some (PDict params) => angle_line "Fajr" params ++ angle_line "Isha" params
          | _ => ""
          end ++ nl
      | None => ""
      end
  | _ => ""
  end.

(** The [params] of a named entry, when present, are a mapping. *)
Definition params_is_mapping (entry : string * pyval) : bool :=
  match snd entry with
  | PDict info =>
      if has_key "name" info then
        match lookup "params" info with
        | None | Some (PDict _) => true
        | Some _ => false
        end
      else true
  | _ => true
  end.

(** ** Failures of the upstream call

    The failures of the transport and of the status, with the exception
    that reports each one: [requests.get] raises a [RequestException]
    (connection refused, timeout), or the response carries a status from 400
    to 599 and [raise_for_status] raises its [HTTPError]. *)
Inductive client_failure (w : world) (rq : request) : exn -> Prop :=
| failure_on_get (e : exn) :
    requests_get w rq = Raise e ->
    isinstance e CatchRequestException = true ->
    client_failure w rq e
| failure_on_status (h : http_response) :
    requests_get w rq = Ret (response_of h) ->
    is_error_status (status_code h) = true ->
    client_failure w rq (http_error h).

(** A status of success. *)
Definition is_2xx (status : Z) : bool := (200 <=? status) && (status <? 300).

(** The exception [Response.json] raises on a body that is not JSON. *)
Definition decode_error (msg : string) : exn :=
  {| exc_type := RequestsJSONDecodeError; exc_str := msg |}.

(** ** Arguments that cannot be turned into a request *)

(** The [required] list of a tool's schema (lines 75, 105, 119 and 137),
    empty when the schema has none or the tool is not in the catalog. *)
Definition strings_of (l : list pyval) : list string :=
  flat_map (fun v => match v with PStr s => [s] | _ => [] end) l.

Definition required_fields (tool : string) : list string :=
  match find (fun t => String.eqb tool (name t)) handle_list_tools with
  | Some t =>
      match getitem (inputSchema t) "required" with
      | Ret (PList l) => strings_of l
      | _ => []
      end
  | None => []
  end.

Fixpoint first_missing (fields : list string) (arguments : dict) : option string :=
  match fields with
  | [] => None
  | field :: rest =>
      if has_key field arguments then first_missing rest arguments
      else Some field
  end.

(** The exception met while building the request: the [KeyError] of the
    first required field that is missing, else, for the two tools that
    parse a date, what [strptime] raises on a date that is given. *)
Definition request_error (name : string) (arguments : dict) : option exn :=
  match first_missing (required_fields name) arguments with
  | Some field => Some {| exc_type := KeyError; exc_str := "'" ++ field ++ "'" |}
  | None =>
      if is_prayer_tool name && truthy (get arguments "date") then
        match strptime (get arguments "date") with
        | Raise e => Some e
        | Ret _ => None
        end
      else None
  end.

(** ** Dates as texts *)

(** [YYYY-MM-DD], the form the schema asks for. *)
Definition iso_date (d : date) : string :=
  pad4 (year d) ++ "-" ++ pad2 (month d) ++ "-" ++ pad2 (day d).

(** [DD-MM-YYYY], the form the upstream path takes. *)
Definition dd_mm_yyyy (d : date) : string :=
  pad2 (day d) ++ "-" ++ pad2 (month d) ++ "-" ++ pad4 (year d).

(** The pattern [^\d{4}-\d{2}-\d{2}$] that the schemas declare for [date]
    (lines 63 and 93). *)
Definition iso_date_pattern (s : string) : bool :=
  match s with
  | String y1 (String y2 (String y3 (String y4 (String s1 (String m1 (String m2
      (String s2 (String d1 (String d2 EmptyString))))))))) =>
      is_digit y1 && is_digit y2 && is_digit y3 && is_digit y4 &&
      Ascii.eqb s1 "-" && is_digit m1 && is_digit m2 &&
      Ascii.eqb s2 "-" && is_digit d1 && is_digit d2
  | _ => false
  end.

(** The endpoint prefix of a prayer-time tool (lines 181 and 234). *)
Definition prayer_endpoint (name : string) : string :=
  if String.eqb name "get_prayer_times_by_city" then "timingsByCity/"
  else "timings/".

(** The date text that goes into the path, for the two ways of naming the
    date that the specification describes: no date (or an empty one), which
    means today, and a calendar date written [YYYY-MM-DD]. *)
Inductive date_sent (today : date) : pyval -> string -> Prop :=
| date_default (v : pyval) :
    truthy v = false ->
    1000 <= year today <= 9999 ->
    date_sent today v (dd_mm_yyyy today)
| date_given (d : date) :
    valid_date d = true ->
    1000 <= year d ->
    date_sent today (PStr (iso_date d)) (dd_mm_yyyy d).

(** ** Sample inputs

    Worlds, arguments and upstream documents for the examples at the end of
    the file.  The examples run with [repr] of a string taken as the string
    in single quotes and floats printed with two decimals; none of them
    prints a float or a quoted string. *)
Definition example_repr_float (f : spec_float) : string := float_format_2f f.
Definition example_repr_str (s : string) : string := "'" ++ s ++ "'".

Definition a_day : date := {| year := 2025; month := 3; day := 9 |}.
Definition another_day : date := {| year := 2031; month := 12; day := 24 |}.

(** An upstream that answers every request with the document [v]. *)
Definition world_answering (d : date) (v : pyval) : world :=
  {| today := d; requests_get := fun _ => Ret (ok_response v) |}.

(** An upstream that never answers in time. *)
Definition world_timing_out (d : date) : world :=
  {| today := d;
     requests_get := fun _ =>
       throw Timeout "HTTPConnectionPool(host='api.aladhan.com', port=80): Read timed out. (read timeout=10)" |}.

Definition london : dict := [("city", PStr "London"); ("country", PStr "UK")].

Definition here : dict := [("latitude", PInt 51); ("longitude", PInt 0)].

Definition sample_date_info : pyval :=
  PDict [("readable", PStr "20 Jul 2024");
         ("hijri", PDict [("date", PStr "14-01-1446");
                          ("month", PDict [("en", PStr "Muharram")]);
                          ("year", PStr "1446")])].

Definition timings_doc (timings : dict) : pyval :=
  PDict [("data", PDict [("timings", PDict timings); ("date", sample_date_info)])].

(** The timings of the specification's example. *)
Definition timings_with_junk : dict :=
  [("Fajr", PStr "05:00"); ("Sunrise", PStr "06:00"); ("Junk", PStr "07:00")].

(** The same two prayers as the upstream may equally well order them. *)
Definition timings_sunrise_first : dict :=
  [("Sunrise", PStr "06:00"); ("Fajr", PStr "05:00")].

Definition direction_doc (direction : pyval) : pyval :=
  PDict [("data", PDict [("direction", direction)])].

(** The methods of the specification's example. *)
Definition two_methods : dict :=
  [("1", PDict [("name", PStr "University of Islamic Sciences, Karachi");
                ("params", PDict [("Fajr", PStr "18"); ("Isha", PStr "18")])]);
   ("2", PDict [("notname", PBool true)])].

(** A named method whose [params] is [null]. *)
Definition method_without_params : dict :=
  [("3", PDict [("name", PStr "X"); ("params", PNone)])].

Definition methods_doc (methods : dict) : pyval := PDict [("data", PDict methods)].

(** Two error documents with the same message and different [details]. *)
Definition rate_limited : dict :=
  [("error", PStr "rate limited"); ("details", PStr "limited")].

Definition rate_limited_retry : dict :=
  [("error", PStr "rate limited"); ("details", PStr "retry after 60 s")].

(** An upstream that sends the HTTP response [h] whatever is requested. *)
Definition world_replying (d : date) (h : http_response) : world :=
  {| today := d; requests_get := fun _ => Ret (response_of h) |}.

(** A status 200 whose body is a page of HTML. *)
Definition html_page : http_response :=
  {| status_code := 200; reason := "OK";
     url := "http://api.aladhan.com/v1/methods";
     body := NotJson "Expecting value: line 1 column 1 (char 0)" |}.

(** A status 404 with a JSON body. *)
Definition not_found : http_response :=
  {| status_code := 404; reason := "Not Found";
     url := "http://api.aladhan.com/v1/metods";
     body := JsonText (PDict [("code", PInt 404)]) |}.

(** ** Catalog and dispatcher *)

(** The names the catalog advertises. *)
Definition catalog_names : list string := map name handle_list_tools.

(** The renderer a tool applies to the upstream result (lines 183-210,
    236-263, 270-285, 293-325 and 330-351). *)
Definition renderer_of (tool : string) (arguments : dict)
  : pyval -> res (list TextContent) :=
  if is_prayer_tool tool then
    render_prayer_times
      (match prayer_header tool arguments with Some h => h | None => "" end)
  else if String.eqb tool "convert_gregorian_to_hijri" then render_hijri
  else if String.eqb tool "get_qibla_direction" then
    render_qibla (get arguments "latitude") (get arguments "longitude")
  else render_methods.

(** ** Results without the expected data *)

(** The key a tool needs inside [data]; the methods listing needs [data]
    only. *)
Definition data_key (tool : string) : option string :=
  if is_prayer_tool tool then Some "timings"
  else if String.eqb tool "convert_gregorian_to_hijri" then Some "hijri"
  else if String.eqb tool "get_qibla_direction" then Some "direction"
  else None.

(** The fixed text of each tool's final [else] (lines 210, 263, 285, 325
    and 351). *)
Definition no_data_message (tool : string) : string :=
  if is_prayer_tool tool then "No prayer time data found in response"
  else if String.eqb tool "convert_gregorian_to_hijri"
       then "No date conversion data found"
  else if String.eqb tool "get_qibla_direction"
       then "No Qibla direction data found"
  else "No calculation methods data found".

(** A mapping without [data], or whose [data] is a mapping without the key
    the tool needs. *)
Definition lacks_data (tool : string) (r : dict) : bool :=
  match lookup "data" r with
  | None => true
  | Some (PDict data) =>
      match data_key tool with
      | Some key => negb (has_key key data)
      | None => false
      end
  | Some _ => false
  end.

(** A JSON document that is neither a mapping, a list nor a string. *)
Definition is_scalar (v : pyval) : bool :=
  match v with
  | PNone | PBool _ | PInt _ | PFloat _ => true
  | _ => false
  end.

Definition not_iterable (v : pyval) : exn :=
  {| exc_type := TypeError;
     exc_str := "argument of type '" ++ type_name v ++ "' is not iterable" |}.

(** The reply of lines 277-281. *)
Definition hijri_text
    (g_date g_month_en g_year h_date h_month_en h_year h_month_ar weekday_en : pyval)
  : string :=
  "📅 Date Conversion" ++ nl ++ nl ++
  "Gregorian: " ++ py_str g_date ++ " " ++ py_str g_month_en ++ " " ++
  py_str g_year ++ nl ++
  "Hijri: " ++ py_str h_date ++ " " ++ py_str h_month_en ++ " " ++
  py_str h_year ++ " AH" ++ nl ++
  "Islamic Month: " ++ py_str h_month_ar ++ " (" ++ py_str h_month_en ++ ")" ++ nl ++
  "Weekday: " ++ py_str weekday_en ++ nl.

(** A date written with the month and the day as plain numbers, without
    leading zeros: [2024-7-5]. *)
Definition lenient_date (d : date) : string :=
  pad4 (year d) ++ "-" ++ str_of_int (month d) ++ "-" ++ str_of_int (day d).

(** Sample inputs for the further examples. *)
Definition hijri_doc : pyval :=
  PDict [("data",
          PDict [("hijri",
                  PDict [("date", PStr "14-01-1446");
                         ("month", PDict [("en", PStr "Muharram");
                                          ("ar", PStr "Muharram (ar)")]);
                         ("year", PStr "1446");
                         ("weekday", PDict [("en", PStr "Al Sabt")])]);
                 ("gregorian",
                  PDict [("date", PStr "20-07-2024");
                         ("month", PDict [("en", PStr "July")]);
                         ("year", PStr "2024")])])].

(** An upstream whose answer depends on the path requested. *)
Definition world_echoing (d : date) : world :=
  {| today := d;
     requests_get := fun rq =>
       Ret (ok_response (PDict [("error", PStr (req_url rq))])) |}.

(** An upstream whose body cannot be decoded, reported in the two ways a
    library may report it. *)
Definition world_bad_body (d : date) (c : exc_class) : world :=
  {| today := d;
     requests_get := fun _ =>
       Ret {| raise_for_status := Ret tt;
              json := throw c "Expecting value: line 1 column 1 (char 0)" |} |}.

(** ** Exceptions the client does not convert

    [requests.get], [raise_for_status] or [response.json()] raises an
    exception that is neither a [RequestException] nor a [ValueError]. *)
Inductive uncaught_failure (w : world) (rq : request) (e : exn) : Prop :=
| uncaught_on_get :
    requests_get w rq = Raise e ->
    isinstance e CatchRequestException = false ->
    isinstance e CatchValueError = false ->
    uncaught_failure w rq e
| uncaught_on_status (resp : response) :
    requests_get w rq = Ret resp ->
    raise_for_status resp = Raise e ->
    isinstance e CatchRequestException = false ->
    isinstance e CatchValueError = false ->
    uncaught_failure w rq e
| uncaught_on_body (resp : response) (u : unit) :
    requests_get w rq = Ret resp ->
    raise_for_status resp = Ret u ->
    json resp = Raise e ->
    isinstance e CatchRequestException = false ->
    isinstance e CatchValueError = false ->
    uncaught_failure w rq e.

(** An upstream whose body makes the decoder exhaust the stack. *)
Definition world_recursion (d : date) : world :=
  {| today := d;
     requests_get := fun _ =>
       Ret {| raise_for_status := Ret tt;
              json := throw (OtherException "RecursionError")
                        "maximum recursion depth exceeded while decoding a JSON array from a unicode string" |} |}.

(** The required fields of a tool with the values the arguments give them:
    the dictionary literal of lines 175 and 228. *)
Definition required_items (tool : string) (arguments : dict) : dict :=
  map (fun field => (field, get arguments field)) (required_fields tool).

(** What an optional numeric argument contributes to the query. *)
Definition optional_value (arguments : dict) (key : string) : option pyval :=
  if is_None (get arguments key) then None else Some (get arguments key).

(** * Properties *)

(** ** Binary64 comparison agrees with the order of the exact values *)

Lemma digits2_pos_size (p : positive) : digits2_pos p = Pos.size p.
Proof. induction p; simpl; congruence. Qed.

Lemma digits2_bounds (m : positive) :
  2 ^ (Z.pos (digits2_pos m) - 1) <= Z.pos m < 2 ^ Z.pos (digits2_pos m).
Proof.
  rewrite digits2_pos_size.
  pose proof (Pos.size_gt m) as Hgt.
  pose proof (Pos.size_le m) as Hle.
  apply Pos2Z.pos_lt_pos in Hgt.
  apply Pos2Z.pos_le_pos in Hle.
  rewrite Pos2Z.inj_pow in Hgt, Hle.
  replace (Z.pos (Pos.size m)) with (Z.succ (Z.pos (Pos.size m) - 1)) in Hle by lia.
  rewrite Z.pow_succ_r in Hle by lia.
  change (Z.pos m~0) with (2 * Z.pos m) in Hle.
  lia.
Qed.

(** A canonical mantissa has at most 53 bits, and exactly 53 above the
    smallest exponent. *)
Lemma bounded_digits (m : positive) (e : Z) :
  bounded prec64 emax64 m e = true ->
  -1074 <= e /\ Z.pos (digits2_pos m) <= 53 /\
  (-1074 < e -> Z.pos (digits2_pos m) = 53).
Proof.
  unfold bounded, canonical_mantissa, fexp, emin, prec64, emax64.
  intros H. apply andb_prop in H as [H _]. apply Z.eqb_eq in H. lia.
Qed.

Lemma SF2Q_num (s : bool) (m : positive) (e : Z) :
  Qnum (SF2Q (S754_finite s m e)) = signed s m * 2 ^ Z.max 0 e.
Proof.
  unfold SF2Q, signed. destruct e; simpl Qnum.
  - rewrite Z.max_id. simpl. lia.
  - rewrite Z.max_r by lia. reflexivity.
  - rewrite Z.max_l by lia. simpl. lia.
Qed.

Lemma SF2Q_den (s : bool) (m : positive) (e : Z) :
  Z.pos (Qden (SF2Q (S754_finite s m e))) = 2 ^ Z.max 0 (- e).
Proof.
  unfold SF2Q. destruct e; simpl Qden.
  - reflexivity.
  - reflexivity.
  - rewrite Z.max_r by lia. simpl Z.opp. rewrite Pos2Z.inj_pow. reflexivity.
Qed.

Lemma pow2_split (a b : Z) :
  0 <= a <= b -> 2 ^ b = 2 ^ (b - a) * 2 ^ a.
Proof.
  intros H. rewrite <- Z.pow_add_r by lia. f_equal. lia.
Qed.

(** The heart of the matter: with canonical mantissas the smaller exponent
    carries the smaller magnitude. *)
Lemma canonical_exponent_order (m1 m2 : positive) (e1 e2 a b : Z) :
  bounded prec64 emax64 m1 e1 = true ->
  bounded prec64 emax64 m2 e2 = true ->
  e1 < e2 -> 0 <= a -> b - a = e2 - e1 ->
  Z.pos m1 * 2 ^ a < Z.pos m2 * 2 ^ b.
Proof.
  intros B1 B2 Hlt Ha Hab.
  apply bounded_digits in B1 as (L1 & D1 & _).
  apply bounded_digits in B2 as (_ & _ & D2).
  specialize (D2 ltac:(lia)).
  pose proof (digits2_bounds m1) as [_ U1].
  pose proof (digits2_bounds m2) as [L2 _].
  rewrite D2 in L2.
  assert (Z.pos m1 < 2 ^ 53) as U1'.
  { eapply Z.lt_le_trans; [exact U1|]. apply Z.pow_le_mono_r; lia. }
  rewrite (pow2_split a b) by lia.
  assert (2 <= 2 ^ (b - a)) as Ht.
  { change 2 with (2 ^ 1) at 1. apply Z.pow_le_mono_r; lia. }
  assert (0 < 2 ^ a) as Hk by (apply Z.pow_pos_nonneg; lia).
  change (2 ^ 53) with (2 * 2 ^ 52) in U1'.
  change (53 - 1) with 52 in L2.
  set (k := 2 ^ a) in *. set (t := 2 ^ (b - a)) in *. set (c := 2 ^ 52) in *.
  assert (0 < c) as Hc by (subst c; lia).
  assert (Z.pos m1 * k < 2 * c * k) by nia.
  assert (2 * (c * k) <= t * (c * k)) by (apply Z.mul_le_mono_nonneg_r; nia).
  assert (c * (t * k) <= Z.pos m2 * (t * k)) by (apply Z.mul_le_mono_nonneg_r; nia).
  lia.
Qed.

Lemma Qcompare_finite (s1 s2 : bool) (m1 m2 : positive) (e1 e2 : Z) :
  Qcompare (SF2Q (S754_finite s1 m1 e1)) (SF2Q (S754_finite s2 m2 e2)) =
  (signed s1 m1 * 2 ^ (Z.max 0 e1 + Z.max 0 (- e2)) ?=
   signed s2 m2 * 2 ^ (Z.max 0 e2 + Z.max 0 (- e1))).
Proof.
  unfold Qcompare.
  rewrite !SF2Q_num, !SF2Q_den, !Z.pow_add_r by lia.
  now rewrite !Z.mul_assoc.
Qed.

(** [SFcompare] on two finite doubles is the comparison of their values. *)
Lemma SFcompare_finite (s1 s2 : bool) (m1 m2 : positive) (e1 e2 : Z) :
  bounded prec64 emax64 m1 e1 = true ->
  bounded prec64 emax64 m2 e2 = true ->
  SFcompare (S754_finite s1 m1 e1) (S754_finite s2 m2 e2) =
  Some (Qcompare (SF2Q (S754_finite s1 m1 e1)) (SF2Q (S754_finite s2 m2 e2))).
Proof.
  intros B1 B2. rewrite Qcompare_finite. simpl SFcompare. f_equal.
  set (a := Z.max 0 e1 + Z.max 0 (- e2)).
  set (b := Z.max 0 e2 + Z.max 0 (- e1)).
  assert (0 <= a) as Ha by lia.
  assert (0 <= b) as Hb by lia.
  assert (b - a = e2 - e1) as Hab by lia.
  assert (0 < 2 ^ a) as Pa by (apply Z.pow_pos_nonneg; lia).
  assert (0 < 2 ^ b) as Pb by (apply Z.pow_pos_nonneg; lia).
  pose proof (canonical_exponent_order m1 m2 e1 e2 a b B1 B2) as Hlt.
  pose proof (canonical_exponent_order m2 m1 e2 e1 b a B2 B1) as Hgt.
  change (Pos.compare_cont Eq m1 m2) with (Z.pos m1 ?= Z.pos m2).
  destruct s1, s2; unfold signed; symmetry.
  - (* both negative *)
    destruct (Z.compare_spec e1 e2) as [E|E|E].
    + replace b with a by lia.
      destruct (Z.compare_spec (Z.pos m1) (Z.pos m2)) as [M|M|M]; simpl CompOpp.
      * apply Z.compare_eq_iff. inversion M. reflexivity.
      * apply Z.compare_gt_iff. nia.
      * apply Z.compare_lt_iff. nia.
    + apply Z.compare_gt_iff. specialize (Hlt E Ha Hab).
      rewrite <- !Pos2Z.opp_pos, !Z.mul_opp_l. lia.
    + apply Z.compare_lt_iff. specialize (Hgt ltac:(lia) Hb ltac:(lia)).
      rewrite <- !Pos2Z.opp_pos, !Z.mul_opp_l. lia.
  - apply Z.compare_lt_iff. nia.
  - apply Z.compare_gt_iff. nia.
  - (* both positive *)
    destruct (Z.compare_spec e1 e2) as [E|E|E].
    + replace b with a by lia.
      destruct (Z.compare_spec (Z.pos m1) (Z.pos m2)) as [M|M|M].
      * apply Z.compare_eq_iff. inversion M. reflexivity.
      * apply Z.compare_lt_iff. nia.
      * apply Z.compare_gt_iff. nia.
    + apply Z.compare_lt_iff. apply Hlt; lia.
    + apply Z.compare_gt_iff. apply Hgt; lia.
Qed.

(** ** The comparisons of the compass test, on values *)

Lemma Qle_bool_compare (x y : Q) :
  Qle_bool x y = match Qcompare x y with Gt => false | _ => true end.
Proof. reflexivity. Qed.

Lemma Qltb_compare (x y : Q) :
  Qltb x y = match Qcompare x y with Lt => true | _ => false end.
Proof.
  unfold Qltb. rewrite Qle_bool_compare, <- Qcompare_antisym.
  now destruct (Qcompare x y).
Qed.

Lemma half_degrees_finite (k : Z) :
  In k [45; 135; 225; 315; 405; 495; 585; 675] ->
  exists m e, half_degrees k = S754_finite false m e /\
              bounded prec64 emax64 m e = true /\
              SF2Q (half_degrees k) == k # 2.
Proof.
  simpl. intros H.
  repeat (destruct H as [<- | H];
          [eexists; eexists; split; [reflexivity | split; reflexivity] |]).
  contradiction.
Qed.

Lemma SF2Q_positive (m : positive) (e : Z) :
  Qcompare (SF2Q (S754_finite false m e)) 0 = Gt.
Proof.
  apply Qgt_alt. unfold Qlt. rewrite SF2Q_num. simpl Qnum. simpl Qden.
  unfold signed.
  assert (0 < 2 ^ Z.max 0 e) by (apply Z.pow_pos_nonneg; lia).
  nia.
Qed.

(** [c <= v] for a float literal [c > 0] and a number [v]. *)
Lemma py_le_literal (c : spec_float) (m : positive) (e : Z) (v : pyval) (n : number) :
  c = S754_finite false m e -> bounded prec64 emax64 m e = true ->
  as_number v = Some n -> is_double v = true ->
  py_le (PFloat c) v = Ret (x_geb (number_value n) (SF2Q c)).
Proof.
  intros -> B Hn Hd. unfold py_le. rewrite Hn. simpl as_number. cbv iota beta.
  f_equal.
  destruct v; try discriminate; simpl in Hn; injection Hn as <-.
  - (* bool *)
    simpl num_compare. simpl number_value. simpl x_geb.
    rewrite Qle_bool_compare.
    now destruct (Qcompare _ _).
  - simpl num_compare. simpl number_value. simpl x_geb.
    rewrite Qle_bool_compare.
    now destruct (Qcompare _ _).
  - simpl in Hd. destruct f as [s|s| |s m' e'].
    + simpl num_compare. cbn [number_value x_geb]. rewrite Qle_bool_compare.
      change (SF2Q (S754_zero s)) with 0%Q.
      now rewrite (SF2Q_positive m e).
    + simpl. now destruct s.
    + reflexivity.
    + cbn [num_compare number_value x_geb]. rewrite SFcompare_finite by assumption.
      rewrite Qle_bool_compare. now destruct (Qcompare _ _).
Qed.

(** [v < c] for a float literal [c > 0] and a number [v]. *)
Lemma py_lt_literal (c : spec_float) (m : positive) (e : Z) (v : pyval) (n : number) :
  c = S754_finite false m e -> bounded prec64 emax64 m e = true ->
  as_number v = Some n -> is_double v = true ->
  py_lt v (PFloat c) = Ret (x_ltb (number_value n) (SF2Q c)).
Proof.
  intros -> B Hn Hd. unfold py_lt. rewrite Hn. simpl as_number. cbv iota beta.
  f_equal.
  destruct v; try discriminate; simpl in Hn; injection Hn as <-.
  - cbn [num_compare float_int_compare option_map number_value x_ltb].
    rewrite Qltb_compare, Qcompare_antisym. reflexivity.
  - cbn [num_compare float_int_compare option_map number_value x_ltb].
    rewrite Qltb_compare, Qcompare_antisym. reflexivity.
  - simpl in Hd. destruct f as [s|s| |s m' e'].
    + cbn [num_compare number_value x_ltb]. rewrite Qltb_compare.
      change (SF2Q (S754_zero s)) with 0%Q.
      rewrite <- Qcompare_antisym, (SF2Q_positive m e). reflexivity.
    + simpl. now destruct s.
    + reflexivity.
    + cbn [num_compare number_value x_ltb]. rewrite SFcompare_finite by assumption.
      rewrite Qltb_compare. reflexivity.
Qed.

Lemma x_geb_Qeq (x : xreal) (p q : Q) : p == q -> x_geb x p = x_geb x q.
Proof. intros H. destruct x; simpl; try reflexivity. now rewrite H. Qed.

Lemma x_ltb_Qeq (x : xreal) (p q : Q) : p == q -> x_ltb x p = x_ltb x q.
Proof. intros H. destruct x; simpl; try reflexivity. unfold Qltb. now rewrite H. Qed.

Section CompassTest.

Variables (v : pyval) (n : number).
Hypothesis Hn : as_number v = Some n.
Hypothesis Hd : is_double v = true.

Lemma le_half_degrees (k : Z) (q : Q) :
  In k [45; 135; 225; 315; 405; 495; 585; 675] -> k # 2 == q ->
  py_le (PFloat (half_degrees k)) v = Ret (x_geb (number_value n) q).
Proof.
  intros Hk Hq. destruct (half_degrees_finite k Hk) as (m & e & Hc & B & V).
  rewrite (py_le_literal _ m e v n Hc B Hn Hd).
  f_equal. apply x_geb_Qeq. now rewrite V.
Qed.

Lemma lt_half_degrees (k : Z) (q : Q) :
  In k [45; 135; 225; 315; 405; 495; 585; 675] -> k # 2 == q ->
  py_lt v (PFloat (half_degrees k)) = Ret (x_ltb (number_value n) q).
Proof.
  intros Hk Hq. destruct (half_degrees_finite k Hk) as (m & e & Hc & B & V).
  rewrite (py_lt_literal _ m e v n Hc B Hn Hd).
  f_equal. apply x_ltb_Qeq. now rewrite V.
Qed.

Lemma between_value (lo hi : Z) (p q : Q) :
  In lo [45; 135; 225; 315; 405; 495; 585; 675] -> lo # 2 == p ->
  In hi [45; 135; 225; 315; 405; 495; 585; 675] -> hi # 2 == q ->
  between lo v hi = Ret (x_geb (number_value n) p && x_ltb (number_value n) q).
Proof.
  intros Hlo Hp Hhi Hq. unfold between.
  rewrite (le_half_degrees lo p Hlo Hp). cbn [res_bind].
  destruct (x_geb (number_value n) p); [|reflexivity].
  now rewrite (lt_half_degrees hi q Hhi Hq).
Qed.

(** The label computed on machine numbers is the label of the value. *)
Lemma compass_of_number :
  compass_of v = Ret (compass_of_value (number_value n)).
Proof.
  unfold compass_of, compass_of_value.
  rewrite (le_half_degrees 675 337.5) by (simpl; tauto || reflexivity).
  cbn [res_bind].
  destruct (x_geb (number_value n) 337.5) eqn:N1; cbn [res_bind]; [reflexivity|].
  rewrite (lt_half_degrees 45 22.5) by (simpl; tauto || reflexivity).
  cbn [res_bind]. simpl orb.
  destruct (x_ltb (number_value n) 22.5) eqn:N2; [reflexivity|].
  rewrite (between_value 45 135 22.5 67.5) by (simpl; tauto || reflexivity).
  cbn [res_bind]. destruct (_ && _); [reflexivity|].
  rewrite (between_value 135 225 67.5 112.5) by (simpl; tauto || reflexivity).
  cbn [res_bind]. destruct (_ && _); [reflexivity|].
  rewrite (between_value 225 315 112.5 157.5) by (simpl; tauto || reflexivity).
  cbn [res_bind]. destruct (_ && _); [reflexivity|].
  rewrite (between_value 315 405 157.5 202.5) by (simpl; tauto || reflexivity).
  cbn [res_bind]. destruct (_ && _); [reflexivity|].
  rewrite (between_value 405 495 202.5 247.5) by (simpl; tauto || reflexivity).
  cbn [res_bind]. destruct (_ && _); [reflexivity|].
  rewrite (between_value 495 585 247.5 292.5) by (simpl; tauto || reflexivity).
  cbn [res_bind]. destruct (_ && _); reflexivity.
Qed.

End CompassTest.

(** On a real value the code's branches are the sectors of the
    specification: the final [else] is the sector from 292.5 to 337.5. *)
Lemma compass_of_value_label (q : Q) :
  compass_of_value (XFin q) = compass_label q.
Proof.
  unfold compass_of_value, compass_label, x_geb, x_ltb.
  destruct (Qle_bool 337.5 q) eqn:A; [reflexivity|].
  destruct (Qltb q 22.5) eqn:B; [reflexivity|].
  simpl orb. cbv iota.
  assert (Qle_bool 22.5 q = true) as C.
  { unfold Qltb in B. apply negb_false_iff in B. exact B. }
  rewrite C. simpl andb.
  assert (forall a, Qltb q a = false -> Qle_bool a q = true) as step.
  { intros a H. unfold Qltb in H. now apply negb_false_iff in H. }
  destruct (Qltb q 67.5) eqn:E1; [reflexivity|]. rewrite (step _ E1). simpl andb.
  destruct (Qltb q 112.5) eqn:E2; [reflexivity|]. rewrite (step _ E2). simpl andb.
  destruct (Qltb q 157.5) eqn:E3; [reflexivity|]. rewrite (step _ E3). simpl andb.
  destruct (Qltb q 202.5) eqn:E4; [reflexivity|]. rewrite (step _ E4). simpl andb.
  destruct (Qltb q 247.5) eqn:E5; [reflexivity|]. rewrite (step _ E5). simpl andb.
  destruct (Qltb q 292.5) eqn:E6; [reflexivity|]. rewrite (step _ E6). simpl andb.
  assert (Qltb q 337.5 = true) as F.
  { unfold Qltb. now rewrite A. }
  now rewrite F.
Qed.

(** ** Structure of one invocation *)

Lemma call_aladhan_api_result (w : world) (endpoint : string) (params : option dict)
    (log : list request) :
  call_aladhan_api w endpoint params log =
  (api_result w (api_request endpoint params),
   (log ++ [api_request endpoint params])%list).
Proof.
  unfold call_aladhan_api, try_except, bind, http_get, lift, api_result, recover.
  destruct (requests_get w (api_request endpoint params)) as [resp|e].
  - destruct (raise_for_status resp) as [u|e].
    + destruct (json resp) as [x|e]; [reflexivity|].
      destruct e as [c msg]; destruct c; reflexivity.
    + destruct e as [c msg]; destruct c; reflexivity.
  - destruct e as [c msg]; destruct c; reflexivity.
Qed.

Lemma bind_lift {A B : Type} (r : res A) (k : A -> M B) (log : list request) :
  bind (lift r) k log =
  match r with
  | Ret a => k a log
  | Raise e => (Raise e, log)
  end.
Proof. unfold bind, lift. now destruct r. Qed.

(** [dispatch] sends the planned request and renders its answer. *)
Lemma dispatch_plan (w : world) (name : string) (arguments : dict)
    (log : list request) :
  dispatch w name arguments log =
  match tool_plan w name arguments with
  | None => (Ret (text_reply ("Unknown tool: " ++ name)), log)
  | Some (Raise e) => (Raise e, log)
  | Some (Ret (rq, render)) =>
      (res_bind (api_result w rq) render, (log ++ [rq])%list)
  end.
Proof.
  unfold dispatch, tool_plan.
  destruct (String.eqb name "get_prayer_times_by_city").
  { unfold get_prayer_times_by_city. rewrite bind_lift.
    destruct (getitem (PDict arguments) "city") as [city|e]; [|reflexivity].
    rewrite bind_lift. cbn [res_bind].
    destruct (getitem (PDict arguments) "country") as [country|e]; [|reflexivity].
    rewrite bind_lift. cbn [res_bind].
    destruct (api_date w (get arguments "date")) as [d|e]; [|reflexivity].
    cbn [res_bind]. unfold bind at 1. rewrite call_aladhan_api_result.
    unfold lift. now destruct (api_result _ _). }
  destruct (String.eqb name "get_prayer_times_by_coordinates").
  { unfold get_prayer_times_by_coordinates. rewrite bind_lift.
    destruct (getitem (PDict arguments) "latitude") as [latitude|e]; [|reflexivity].
    rewrite bind_lift. cbn [res_bind].
    destruct (getitem (PDict arguments) "longitude") as [longitude|e]; [|reflexivity].
    rewrite bind_lift. cbn [res_bind].
    destruct (api_date w (get arguments "date")) as [d|e]; [|reflexivity].
    cbn [res_bind]. unfold bind at 1. rewrite call_aladhan_api_result.
    unfold lift. now destruct (api_result _ _). }
  destruct (String.eqb name "convert_gregorian_to_hijri").
  { unfold convert_gregorian_to_hijri. rewrite bind_lift.
    destruct (getitem (PDict arguments) "date") as [d|e]; [|reflexivity].
    cbn [res_bind]. unfold bind at 1. rewrite call_aladhan_api_result.
    unfold lift. now destruct (api_result _ _). }
  destruct (String.eqb name "get_qibla_direction").
  { unfold get_qibla_direction. rewrite bind_lift.
    destruct (getitem (PDict arguments) "latitude") as [latitude|e]; [|reflexivity].
    rewrite bind_lift. cbn [res_bind].
    destruct (getitem (PDict arguments) "longitude") as [longitude|e]; [|reflexivity].
    cbn [res_bind]. unfold bind at 1. rewrite call_aladhan_api_result.
    unfold lift. now destruct (api_result _ _). }
  destruct (String.eqb name "get_calculation_methods").
  { unfold get_calculation_methods. unfold bind at 1.
    rewrite call_aladhan_api_result.
    unfold lift. now destruct (api_result _ _). }
  reflexivity.
Qed.

(** One invocation: no request when building fails or the tool is unknown,
    exactly one otherwise; every exception ends in the outer clause. *)
Lemma call_tool_plan (w : world) (name : string) (arguments : dict) :
  call_tool w name arguments =
  match tool_plan w name arguments with
  | None => (Ret (text_reply ("Unknown tool: " ++ name)), [])
  | Some (Raise e) => (Ret (executing_error name e), [])
  | Some (Ret (rq, render)) =>
      (guarded name (res_bind (api_result w rq) render), [rq])
  end.
Proof.
  unfold call_tool, handle_call_tool, try_except. rewrite dispatch_plan.
  destruct (tool_plan w name arguments) as [[[rq render]|e]|]; try reflexivity.
  simpl app. now destruct (res_bind (api_result w rq) render).
Qed.

(** ** Every renderer answers with one text block *)

Lemma single_text (t : string) : single (Ret (text_reply t)).
Proof. simpl. now exists t. Qed.

Lemma res_bind_single {A : Type} (r : res A) (k : A -> res (list TextContent)) :
  (forall a, single (k a)) -> single (res_bind r k).
Proof. intros H. destruct r; simpl; [apply H | exact I]. Qed.

Ltac single_steps :=
  cbv zeta;
  repeat first
    [ apply single_text
    | apply res_bind_single; intros
    | match goal with
      | |- single (if ?b then _ else _) => destruct b
      end ].

Lemma render_prayer_times_single (header : string) (result : pyval) :
  single (render_prayer_times header result).
Proof. unfold render_prayer_times. single_steps. Qed.

Lemma render_hijri_single (result : pyval) : single (render_hijri result).
Proof. unfold render_hijri. single_steps. Qed.

Lemma render_qibla_single (latitude longitude result : pyval) :
  single (render_qibla latitude longitude result).
Proof. unfold render_qibla. single_steps. Qed.

Lemma render_methods_single (result : pyval) : single (render_methods result).
Proof. unfold render_methods. single_steps. Qed.

(** Inversion of a plan that built its request. *)
Ltac plan_cases H :=
  unfold tool_plan in H;
  repeat match type of H with
    | (if ?b then _ else _) = _ => destruct b eqn:?
    | Some (res_bind ?r _) = _ => destruct r eqn:?; cbn [res_bind] in H
    end;
  try discriminate;
  inversion H; subst; clear H.

Lemma plan_render_single (w : world) (name : string) (arguments : dict)
    (rq : request) (render : pyval -> res (list TextContent)) :
  tool_plan w name arguments = Some (Ret (rq, render)) ->
  forall v, single (render v).
Proof.
  intros H v. plan_cases H;
    auto using render_prayer_times_single, render_hijri_single,
      render_qibla_single, render_methods_single.
Qed.

(** ** An [error] key in the result *)

Lemma has_key_lookup {V : Type} (k : string) (d : list (string * V)) (v : V) :
  lookup k d = Some v -> has_key k d = true.
Proof. unfold has_key. now intros ->. Qed.

Ltac error_branch H :=
  unfold contains, getitem; rewrite (has_key_lookup _ _ _ H), H; reflexivity.

Lemma render_prayer_times_error (header : string) (r : dict) (err : pyval) :
  lookup "error" r = Some err ->
  render_prayer_times header (PDict r) = Ret (text_reply ("Error: " ++ py_str err)).
Proof. intros H. unfold render_prayer_times. error_branch H. Qed.

Lemma render_hijri_error (r : dict) (err : pyval) :
  lookup "error" r = Some err ->
  render_hijri (PDict r) = Ret (text_reply ("Error: " ++ py_str err)).
Proof. intros H. unfold render_hijri. error_branch H. Qed.

Lemma render_qibla_error (latitude longitude : pyval) (r : dict) (err : pyval) :
  lookup "error" r = Some err ->
  render_qibla latitude longitude (PDict r) =
  Ret (text_reply ("Error: " ++ py_str err)).
Proof. intros H. unfold render_qibla. error_branch H. Qed.

Lemma render_methods_error (r : dict) (err : pyval) :
  lookup "error" r = Some err ->
  render_methods (PDict r) = Ret (text_reply ("Error: " ++ py_str err)).
Proof. intros H. unfold render_methods. error_branch H. Qed.

Lemma plan_render_error (w : world) (name : string) (arguments : dict)
    (rq : request) (render : pyval -> res (list TextContent))
    (r : dict) (err : pyval) :
  tool_plan w name arguments = Some (Ret (rq, render)) ->
  lookup "error" r = Some err ->
  render (PDict r) = Ret (text_reply ("Error: " ++ py_str err)).
Proof.
  intros H E. plan_cases H;
    auto using render_prayer_times_error, render_hijri_error,
      render_qibla_error, render_methods_error.
Qed.

(** C1.  Whatever the tool name, the arguments and the behaviour of the
    upstream (an answer, a transport failure, a body that is not JSON, a
    document of an unexpected shape), one invocation of [handle_call_tool]
    returns a value, never an exception, and that value is a list of exactly
    one text block. *)
Theorem handle_call_tool_single_reply
    (w : world) (name : string) (arguments : dict) (log : list request) :
  exists (t : string) (log' : list request),
    handle_call_tool w name arguments log = (Ret (text_reply t), log').
Proof.
  unfold handle_call_tool, try_except. rewrite dispatch_plan.
  destruct (tool_plan w name arguments) as [[[rq render]|e]|] eqn:P.
  - pose proof (plan_render_single w name arguments rq render P) as S.
    destruct (api_result w rq) as [v|e]; cbn [res_bind].
    + specialize (S v). destruct (render v) as [reply|e].
      * destruct S as [t ->]. now exists t, (log ++ [rq])%list.
      * cbn. now eexists _, _.
    + cbn. now eexists _, _.
  - cbn. now eexists _, _.
  - now eexists _, _.
Qed.

(** ** Qibla direction *)

Lemma append_assoc (a b c : string) : (a ++ b) ++ c = a ++ b ++ c.
Proof. induction a as [|x a IH]; simpl; [reflexivity | now rewrite IH]. Qed.

Lemma append_nil_r (a : string) : a ++ "" = a.
Proof. induction a as [|x a IH]; simpl; [reflexivity | now rewrite IH]. Qed.

Lemma has_key_none {V : Type} (k : string) (d : list (string * V)) :
  lookup k d = None -> has_key k d = false.
Proof. unfold has_key. now intros ->. Qed.

Lemma render_qibla_direction (latitude longitude : pyval) (r data : dict)
    (direction : pyval) (bearing compass : string) :
  lookup "error" r = None ->
  lookup "data" r = Some (PDict data) ->
  lookup "direction" data = Some direction ->
  format_2f direction = Ret bearing ->
  compass_of direction = Ret compass ->
  render_qibla latitude longitude (PDict r) =
  Ret (text_reply (qibla_text latitude longitude bearing compass)).
Proof.
  intros He Hd Hdir Hf Hc. unfold render_qibla, contains, getitem.
  rewrite (has_key_none _ _ He), (has_key_lookup _ _ _ Hd), Hd.
  cbn [res_bind]. rewrite (has_key_lookup _ _ _ Hdir), Hdir. cbn [res_bind].
  rewrite Hf, Hc. cbn [res_bind]. unfold qibla_text.
  now rewrite !append_assoc.
Qed.

Lemma format_2f_in_range (direction : pyval) (n : number) (q : Q) :
  as_number direction = Some n -> number_value n = XFin q ->
  (0 <= q)%Q -> (q < 360)%Q ->
  exists bearing, format_2f direction = Ret bearing.
Proof.
  intros Hn Hv Hlo Hhi.
  destruct direction; try discriminate; simpl in Hn; injection Hn as <-.
  - destruct b; eexists; vm_compute; reflexivity.
  - simpl in Hv. injection Hv as <-.
    change 0%Q with (inject_Z 0) in Hlo. change 360%Q with (inject_Z 360) in Hhi.
    rewrite <- Zle_Qle in Hlo. rewrite <- Zlt_Qlt in Hhi.
    assert (In z (map Z.of_nat (seq 0 360))) as Hin.
    { apply in_map_iff. exists (Z.to_nat z). split; [lia|]. apply in_seq. lia. }
    assert (forallb (fun z => match format_2f (PInt z) with
                              | Ret _ => true
                              | Raise _ => false
                              end) (map Z.of_nat (seq 0 360)) = true) as Hall
      by (vm_compute; reflexivity).
    rewrite forallb_forall in Hall. specialize (Hall z Hin).
    destruct (format_2f (PInt z)) as [s|]; [now exists s | discriminate].
  - eexists. reflexivity.
Qed.

Lemma tool_plan_qibla (w : world) (arguments : dict) :
  tool_plan w "get_qibla_direction" arguments =
  Some (let* latitude := getitem (PDict arguments) "latitude" in
        let* longitude := getitem (PDict arguments) "longitude" in
        Ret (api_request
               ("qibla/" ++ py_str latitude ++ "/" ++ py_str longitude) None,
             render_qibla latitude longitude)).
Proof. reflexivity. Qed.

(** C2.  When the upstream answers [get_qibla_direction] with a document
    whose [data.direction] is a number of value [q] with [0 <= q < 360], the
    reply is the Qibla text whose compass label is the sector label of [q]:
    North from 337.5 and below 22.5, then Northeast, East, Southeast, South,
    Southwest, West and Northwest in steps of 45 degrees from 22.5. *)
Theorem qibla_compass_sector
    (w : world) (arguments : dict) (latitude longitude : pyval)
    (r data : dict) (direction : pyval) (n : number) (q : Q) :
  lookup "latitude" arguments = Some latitude ->
  lookup "longitude" arguments = Some longitude ->
  api_result w (api_request
                  ("qibla/" ++ py_str latitude ++ "/" ++ py_str longitude) None)
    = Ret (PDict r) ->
  lookup "error" r = None ->
  lookup "data" r = Some (PDict data) ->
  lookup "direction" data = Some direction ->
  as_number direction = Some n ->
  is_double direction = true ->
  number_value n = XFin q ->
  (0 <= q)%Q -> (q < 360)%Q ->
  exists bearing,
    format_2f direction = Ret bearing /\
    fst (call_tool w "get_qibla_direction" arguments) =
    Ret (text_reply (qibla_text latitude longitude bearing (compass_label q))).
Proof.
  intros Hlat Hlon Hup He Hd Hdir Hn Hdbl Hv Hlo Hhi.
  destruct (format_2f_in_range direction n q Hn Hv Hlo Hhi) as [bearing Hf].
  exists bearing. split; [exact Hf|].
  rewrite call_tool_plan, tool_plan_qibla. unfold getitem at 1 2.
  rewrite Hlat, Hlon. cbn [res_bind]. rewrite Hup. cbn [res_bind fst].
  rewrite (render_qibla_direction latitude longitude r data direction bearing
             (compass_label q) He Hd Hdir Hf).
  - reflexivity.
  - rewrite (compass_of_number direction n Hn Hdbl), Hv.
    now rewrite compass_of_value_label.
Qed.

(** The sample bearings of the specification, as the doubles their decimal
    literals denote. *)
Example qibla_sample_bearings :
  compass_of (PFloat (S754_zero false)) = Ret "North" /\
  compass_of (PFloat (decimal_literal 449 1)) = Ret "Northeast" /\
  compass_of (PFloat (float_of_int 90)) = Ret "East" /\
  compass_of (PFloat (half_degrees 675)) = Ret "North" /\
  compass_of (PFloat (decimal_literal 2249 2)) = Ret "North" /\
  compass_of (PFloat (half_degrees 45)) = Ret "Northeast".
Proof. repeat split; vm_compute; reflexivity. Qed.

(** C9.  The compass test of lines 304-319 returns a label for every
    number, inside the documented range or not: one of the eight names, and
    North whenever the value is below 22.5 (all negative values and minus
    infinity included) or at least 337.5 (360 and above and plus infinity
    included). *)
Theorem compass_of_total (direction : pyval) (n : number) :
  as_number direction = Some n ->
  is_double direction = true ->
  exists label,
    compass_of direction = Ret label /\
    In label compass_labels /\
    (x_ltb (number_value n) 22.5 = true -> label = "North") /\
    (x_geb (number_value n) 337.5 = true -> label = "North").
Proof.
  intros Hn Hd. exists (compass_of_value (number_value n)).
  split; [apply (compass_of_number direction n Hn Hd)|].
  unfold compass_of_value, compass_labels.
  destruct (x_geb (number_value n) 337.5) eqn:N1.
  { simpl. tauto. }
  destruct (x_ltb (number_value n) 22.5) eqn:N2.
  { simpl. tauto. }
  split; [|split; intros; discriminate].
  cbn [orb].
  repeat match goal with
         | |- In (if ?b then _ else _) _ => destruct b
         end; simpl; tauto.
Qed.

(** ** Prayer times *)

Lemma prayer_lines_acc (its : list (string * pyval)) (response : string) :
  prayer_lines its response = response ++ upstream_order_lines its.
Proof.
  unfold upstream_order_lines.
  revert response. induction its as [|[prayer time] rest IH]; intros response.
  - simpl. now rewrite append_nil_r.
  - cbn [prayer_lines filter]. rewrite IH.
    unfold is_known_prayer at 2, has_key. cbn [fst].
    destruct (lookup prayer prayer_names) as [label|] eqn:L.
    + cbn [map concat_lines fold_right]. unfold prayer_line at 2. cbn [fst snd].
      rewrite L. now rewrite !append_assoc.
    + reflexivity.
Qed.

Lemma render_prayer_times_lines (header : string) (r data timings : dict)
    (date_info : pyval) (line : string) :
  lookup "error" r = None ->
  lookup "data" r = Some (PDict data) ->
  lookup "timings" data = Some (PDict timings) ->
  lookup "date" data = Some date_info ->
  date_line date_info = Ret line ->
  render_prayer_times header (PDict r) =
  Ret (text_reply (header ++ line ++ upstream_order_lines timings)).
Proof.
  intros He Hd Ht Hdate Hline. unfold render_prayer_times, contains, getitem.
  rewrite (has_key_none _ _ He), (has_key_lookup _ _ _ Hd), Hd.
  cbn [res_bind]. rewrite (has_key_lookup _ _ _ Ht), Ht, Hdate. cbn [res_bind].
  rewrite Hline. cbn [res_bind items].
  now rewrite prayer_lines_acc, append_assoc.
Qed.

(** A prayer-time tool whose required arguments are present and whose date
    resolves renders the answer with its location header. *)
Lemma tool_plan_prayer (w : world) (name : string) (arguments : dict)
    (header api_date_str : string) :
  prayer_header name arguments = Some header ->
  api_date w (get arguments "date") = Ret api_date_str ->
  exists endpoint params,
    tool_plan w name arguments =
    Some (Ret (api_request (endpoint ++ api_date_str) (Some params),
               render_prayer_times header)) /\
    endpoint = (if String.eqb name "get_prayer_times_by_city"
                then "timingsByCity/" else "timings/").
Proof.
  unfold prayer_header, tool_plan, getitem. intros H D.
  destruct (String.eqb name "get_prayer_times_by_city").
  { destruct (lookup "city" arguments) as [city|]; [|discriminate].
    destruct (lookup "country" arguments) as [country|]; [|discriminate].
    injection H as <-. cbn [res_bind]. rewrite D. cbn [res_bind].
    now eexists _, _. }
  destruct (String.eqb name "get_prayer_times_by_coordinates"); [|discriminate].
  destruct (lookup "latitude" arguments) as [latitude|]; [|discriminate].
  destruct (lookup "longitude" arguments) as [longitude|]; [|discriminate].
  injection H as <-. cbn [res_bind]. rewrite D. cbn [res_bind].
  now eexists _, _.
Qed.

(** C3, as the code has it.  For both prayer-time tools and a successful
    answer, the reply is the location header, the date line, and then one
    line per key of [timings] that is among the seven known names, in the
    order in which the keys appear in the upstream mapping; a key that is
    not among the seven names produces no line. *)
Theorem prayer_lines_in_upstream_order
    (w : world) (name : string) (arguments : dict) (header api_date_str : string)
    (r data timings : dict) (date_info : pyval) (line : string) :
  prayer_header name arguments = Some header ->
  api_date w (get arguments "date") = Ret api_date_str ->
  answers w (PDict r) ->
  lookup "error" r = None ->
  lookup "data" r = Some (PDict data) ->
  lookup "timings" data = Some (PDict timings) ->
  lookup "date" data = Some date_info ->
  date_line date_info = Ret line ->
  fst (call_tool w name arguments) =
  Ret (text_reply
         (header ++ line ++
          concat_lines (map prayer_line (filter is_known_prayer timings)))).
Proof.
  intros Hh Hdate Hup He Hd Ht Hdi Hline.
  destruct (tool_plan_prayer w name arguments header api_date_str Hh Hdate)
    as (endpoint & params & P & _).
  rewrite call_tool_plan, P. cbn [fst]. rewrite Hup. cbn [res_bind].
  rewrite (render_prayer_times_lines header r data timings date_info line
             He Hd Ht Hdi Hline).
  reflexivity.
Qed.

(** ** Calculation methods *)

Lemma method_block_text (method_id : string) (method_info : pyval)
    (response : string) :
  params_is_mapping (method_id, method_info) = true ->
  method_block method_id method_info response =
  Ret (response ++
       (if is_named (method_id, method_info)
        then method_text (method_id, method_info) else "")).
Proof.
  unfold params_is_mapping, method_block, is_named, method_text. cbn [fst snd].
  intros H.
  destruct method_info as [| | | | |l|info]; cbn [is_dict res_bind];
    try now rewrite append_nil_r.
  cbn [contains]. cbn [res_bind].
  destruct (has_key "name" info) eqn:N; [|now rewrite append_nil_r].
  unfold has_key in N. unfold getitem at 1.
  destruct (lookup "name" info) as [name|]; [|discriminate].
  cbn [res_bind]. unfold has_key.
  destruct (lookup "params" info) as [[| | | | | |params]|] eqn:P;
    try discriminate; cbn [res_bind].
  - unfold getitem at 1. rewrite P. cbn [res_bind contains].
    unfold angle_line, has_key, getitem.
    destruct (lookup "Fajr" params) as [fajr|]; cbn [res_bind];
      destruct (lookup "Isha" params) as [isha|]; cbn [res_bind];
      f_equal; rewrite ?append_assoc; reflexivity.
  - f_equal. now rewrite !append_assoc.
Qed.

Lemma methods_loop_text (its : list (string * pyval)) (response : string) :
  forallb params_is_mapping its = true ->
  methods_loop its response =
  Ret (response ++ concat_lines (map method_text (filter is_named its))).
Proof.
  revert response. induction its as [|[method_id method_info] rest IH];
    intros response H.
  - simpl. now rewrite append_nil_r.
  - cbn [forallb] in H. apply andb_prop in H as [H1 H2].
    cbn [methods_loop]. rewrite (method_block_text _ _ _ H1). cbn [res_bind].
    rewrite (IH _ H2). cbn [filter].
    destruct (is_named (method_id, method_info)).
    + cbn [map concat_lines fold_right]. now rewrite append_assoc.
    + now rewrite append_nil_r.
Qed.

(** C7, as the code has it.  When the upstream answers
    [get_calculation_methods] with a document whose [data] is a mapping in
    which the [params] of every named entry, if present, are a mapping, the
    reply is the static header followed by one numbered block per entry that
    has a [name] field (with the Fajr and the Isha line exactly when its
    [params] hold that key) and nothing for the other entries; for an empty
    mapping the reply is the header alone, which is not an error reply. *)
Theorem methods_blocks
    (w : world) (arguments : dict) (r methods : dict) :
  answers w (PDict r) ->
  lookup "error" r = None ->
  lookup "data" r = Some (PDict methods) ->
  forallb params_is_mapping methods = true ->
  fst (call_tool w "get_calculation_methods" arguments) =
  Ret (text_reply
         (methods_header ++
          concat_lines (map method_text (filter is_named methods)))) /\
  (methods = [] ->
   fst (call_tool w "get_calculation_methods" arguments) =
   Ret (text_reply methods_header)).
Proof.
  intros Hup He Hd Hp.
  assert (fst (call_tool w "get_calculation_methods" arguments) =
          Ret (text_reply
                 (methods_header ++
                  concat_lines (map method_text (filter is_named methods)))))
    as Main.
  { rewrite call_tool_plan.
    change (tool_plan w "get_calculation_methods" arguments)
      with (Some (Ret (api_request "methods" None, render_methods))).
    cbn [fst]. rewrite Hup. cbn [res_bind].
    unfold render_methods, contains, getitem.
    rewrite (has_key_none _ _ He), (has_key_lookup _ _ _ Hd), Hd.
    cbn [res_bind items]. fold methods_header.
    rewrite (methods_loop_text _ _ Hp). reflexivity. }
  split; [exact Main|].
  intros ->. rewrite Main. reflexivity.
Qed.

(** ** The upstream client *)

(** On a failure of the connection or a timeout, which [requests]
    raises as a [RequestException], and on a response with a status from
    400 to 599, for which [raise_for_status] raises an [HTTPError], the
    client returns the record with the message of the exception under
    [error] and ["Failed to connect to Aladhan API"] under [details]; it
    returns and raises nothing. *)
Theorem call_aladhan_api_failure
    (w : world) (endpoint : string) (params : option dict) (log : list request)
    (e : exn) :
  client_failure w (api_request endpoint params) e ->
  call_aladhan_api w endpoint params log =
  (Ret (PDict [("error", PStr (exc_str e));
               ("details", PStr "Failed to connect to Aladhan API")]),
   (log ++ [api_request endpoint params])%list).
Proof.
  intros F. rewrite call_aladhan_api_result. f_equal.
  unfold api_result, recover.
  destruct F as [e G I | h G S].
  - now rewrite G, I.
  - rewrite G. unfold response_of. cbn [raise_for_status]. now rewrite S.
Qed.

(** C4.  A body that is not JSON is not answered with the record of the
    [except ValueError] clause.  For a response with a status of success
    whose body the decoder rejects, [response.json()] raises
    [requests.exceptions.JSONDecodeError], which is a [RequestException] as
    well as a [ValueError]; the first [except] clause takes it, and the
    client returns the record with the decoder's message under [error] and
    ["Failed to connect to Aladhan API"] under [details], not
    [{error: "Invalid JSON response from Aladhan API"}]. *)
Theorem invalid_json_reported_as_connection_failure
    (w : world) (endpoint : string) (params : option dict) (log : list request)
    (h : http_response) (msg : string) :
  requests_get w (api_request endpoint params) = Ret (response_of h) ->
  is_2xx (status_code h) = true ->
  body h = NotJson msg ->
  call_aladhan_api w endpoint params log =
  (Ret (error_record (decode_error msg)),
   (log ++ [api_request endpoint params])%list) /\
  fst (call_aladhan_api w endpoint params log) <> Ret invalid_json_record.
Proof.
  intros G S B.
  assert (call_aladhan_api w endpoint params log =
          (Ret (error_record (decode_error msg)),
           (log ++ [api_request endpoint params])%list)) as E.
  { rewrite call_aladhan_api_result. f_equal.
    unfold api_result. rewrite G. unfold response_of.
    cbn [raise_for_status json]. rewrite B.
    replace (is_error_status (status_code h)) with false; [reflexivity|].
    unfold is_2xx in S. unfold is_error_status.
    apply andb_prop in S as [_ S]. apply Z.ltb_lt in S.
    symmetry. apply andb_false_iff. left. apply Z.leb_gt. lia. }
  split; [exact E|].
  rewrite E. cbn [fst]. unfold error_record, invalid_json_record. discriminate.
Qed.

(** The clauses are tried in order, and the first one selects by
    [RequestException]: a decode error whose class derives from both
    [RequestException] and [ValueError] is answered by the first clause. *)
Lemma decode_error_as_request_exception
    (w : world) (endpoint : string) (params : option dict) (log : list request)
    (resp : response) (msg : string) :
  requests_get w (api_request endpoint params) = Ret resp ->
  raise_for_status resp = Ret tt ->
  json resp = Raise {| exc_type := RequestsJSONDecodeError; exc_str := msg |} ->
  fst (call_aladhan_api w endpoint params log) =
  Ret (PDict [("error", PStr msg);
              ("details", PStr "Failed to connect to Aladhan API")]).
Proof.
  intros G S J. rewrite call_aladhan_api_result. cbn [fst].
  unfold api_result. now rewrite G, S, J.
Qed.

(** ** Error replies *)

Lemma error_reply_text
    (w : world) (name : string) (arguments : dict) (r : dict) (err : pyval) :
  snd (call_tool w name arguments) <> [] ->
  (forall rq, In rq (snd (call_tool w name arguments)) ->
              api_result w rq = Ret (PDict r)) ->
  lookup "error" r = Some err ->
  fst (call_tool w name arguments) = Ret (text_reply ("Error: " ++ py_str err)).
Proof.
  rewrite call_tool_plan.
  destruct (tool_plan w name arguments) as [[[rq render]|e]|] eqn:P;
    cbn [fst snd]; intros Hsent Hup He; try (now contradiction Hsent).
  rewrite (Hup rq) by (now left). cbn [res_bind].
  now rewrite (plan_render_error w name arguments rq render r err P He).
Qed.

(** C6.  Whenever a tool has sent its request and the result carries an
    [error] key, the reply text is exactly ["Error: "] followed by the value
    of that key, and [details] is not surfaced: a run whose result has the
    same [error] and any other [details] (or none) gives the same reply. *)
Theorem error_reply_is_error_value
    (w w' : world) (name : string) (arguments : dict) (r r' : dict) (err : pyval) :
  snd (call_tool w name arguments) <> [] ->
  (forall rq, In rq (snd (call_tool w name arguments)) ->
              api_result w rq = Ret (PDict r)) ->
  lookup "error" r = Some err ->
  snd (call_tool w' name arguments) <> [] ->
  (forall rq, In rq (snd (call_tool w' name arguments)) ->
              api_result w' rq = Ret (PDict r')) ->
  lookup "error" r' = Some err ->
  fst (call_tool w name arguments) = Ret (text_reply ("Error: " ++ py_str err)) /\
  fst (call_tool w' name arguments) = fst (call_tool w name arguments).
Proof.
  intros S U E S' U' E'.
  rewrite (error_reply_text w name arguments r err S U E).
  rewrite (error_reply_text w' name arguments r' err S' U' E').
  split; reflexivity.
Qed.

(** ** Arguments that cannot be turned into a request *)

Lemma first_missing_two (a b : string) (arguments : dict) :
  first_missing [a; b] arguments =
  match lookup a arguments, lookup b arguments with
  | None, _ => Some a
  | Some _, None => Some b
  | Some _, Some _ => None
  end.
Proof.
  unfold first_missing, has_key.
  destruct (lookup a arguments); [|reflexivity].
  now destruct (lookup b arguments).
Qed.

Lemma required_fields_cases (tool : string) :
  required_fields tool =
  if String.eqb tool "get_prayer_times_by_city" then ["city"; "country"]
  else if String.eqb tool "get_prayer_times_by_coordinates"
       then ["latitude"; "longitude"]
  else if String.eqb tool "convert_gregorian_to_hijri" then ["date"]
  else if String.eqb tool "get_qibla_direction" then ["latitude"; "longitude"]
  else [].
Proof.
  unfold required_fields, handle_list_tools. cbn [find name].
  repeat match goal with
         | |- context [if String.eqb tool ?s then _ else _] =>
             destruct (String.eqb tool s); [reflexivity|]
         end.
  reflexivity.
Qed.

Lemma api_date_error (w : world) (date_str : pyval) (e : exn) :
  truthy date_str = true -> strptime date_str = Raise e ->
  api_date w date_str = Raise e.
Proof. unfold api_date. now intros -> ->. Qed.

(** C8.  When a required field is missing, or the date of a prayer-time
    tool is rejected by [strptime], the exception is caught by the outer
    clause before any request is sent, and the reply is exactly
    ["Error executing "], the tool name, [": "] and the message of the
    exception. *)
Theorem invalid_arguments_reply
    (w : world) (name : string) (arguments : dict) (e : exn) :
  request_error name arguments = Some e ->
  call_tool w name arguments =
  (Ret (text_reply ("Error executing " ++ name ++ ": " ++ exc_str e)), []).
Proof.
  rewrite call_tool_plan.
  unfold request_error. rewrite required_fields_cases.
  unfold is_prayer_tool, tool_plan, getitem.
  destruct (String.eqb name "get_prayer_times_by_city").
  { rewrite first_missing_two.
    destruct (lookup "city" arguments) as [city|]; cbn [res_bind];
      [|intros [= <-]; reflexivity].
    destruct (lookup "country" arguments) as [country|]; cbn [res_bind];
      [|intros [= <-]; reflexivity].
    cbn [orb andb].
    destruct (truthy (get arguments "date")) eqn:T; [|discriminate].
    destruct (strptime (get arguments "date")) as [d|e'] eqn:S; [discriminate|].
    intros [= <-]. rewrite (api_date_error w _ _ T S). reflexivity. }
  destruct (String.eqb name "get_prayer_times_by_coordinates").
  { rewrite first_missing_two.
    destruct (lookup "latitude" arguments) as [latitude|]; cbn [res_bind];
      [|intros [= <-]; reflexivity].
    destruct (lookup "longitude" arguments) as [longitude|]; cbn [res_bind];
      [|intros [= <-]; reflexivity].
    cbn [orb andb].
    destruct (truthy (get arguments "date")) eqn:T; [|discriminate].
    destruct (strptime (get arguments "date")) as [d|e'] eqn:S; [discriminate|].
    intros [= <-]. rewrite (api_date_error w _ _ T S). reflexivity. }
  destruct (String.eqb name "convert_gregorian_to_hijri").
  { unfold first_missing, has_key.
    destruct (lookup "date" arguments) as [d|]; cbn [res_bind];
      [discriminate | intros [= <-]; reflexivity]. }
  destruct (String.eqb name "get_qibla_direction").
  { rewrite first_missing_two.
    destruct (lookup "latitude" arguments) as [latitude|]; cbn [res_bind];
      [|intros [= <-]; reflexivity].
    destruct (lookup "longitude" arguments) as [longitude|]; cbn [res_bind];
      [discriminate | intros [= <-]; reflexivity]. }
  discriminate.
Qed.

(** ** Determinism *)

Lemma api_result_same_upstream (w1 w2 : world) (rq1 rq2 : request) :
  requests_get w1 rq1 = requests_get w2 rq2 ->
  api_result w1 rq1 = api_result w2 rq2.
Proof. unfold api_result. now intros ->. Qed.

(** The date only enters the request: two worlds that differ in their
    calendar date plan the same failure or the same renderer. *)
Lemma tool_plan_same_renderer (w1 w2 : world) (name : string) (arguments : dict) :
  match tool_plan w1 name arguments, tool_plan w2 name arguments with
  | None, None => True
  | Some (Raise e1), Some (Raise e2) => e1 = e2
  | Some (Ret (_, render1)), Some (Ret (_, render2)) => render1 = render2
  | _, _ => False
  end.
Proof.
  unfold tool_plan, api_date.
  repeat match goal with
         | |- context [if String.eqb name ?s then _ else _] =>
             destruct (String.eqb name s)
         end; [| | | | |exact I];
    repeat match goal with
           | |- context [getitem (PDict arguments) ?k] =>
               destruct (getitem (PDict arguments) k); cbn [res_bind]
           end; try reflexivity;
    destruct (truthy (get arguments "date")); cbn [res_bind]; try reflexivity;
    destruct (strptime (get arguments "date")); reflexivity.
Qed.

(** C10.  With a fixed upstream behaviour (the same outcome whatever is
    requested, in both runs), two runs of the handler on the same tool name
    and arguments produce the same reply, whatever the calendar date of each
    run: the reply is a function of the name, the arguments and the upstream
    result. *)
Theorem reply_deterministic
    (w1 w2 : world) (name : string) (arguments : dict) :
  (forall rq1 rq2, requests_get w1 rq1 = requests_get w2 rq2) ->
  fst (call_tool w1 name arguments) = fst (call_tool w2 name arguments).
Proof.
  intros Hup. rewrite !call_tool_plan.
  pose proof (tool_plan_same_renderer w1 w2 name arguments) as H.
  destruct (tool_plan w1 name arguments) as [[[rq1 render1]|e1]|];
    destruct (tool_plan w2 name arguments) as [[[rq2 render2]|e2]|];
    try contradiction; cbn [fst].
  - subst render2.
    now rewrite (api_result_same_upstream w1 w2 rq1 rq2 (Hup rq1 rq2)).
  - now subst e2.
  - reflexivity.
Qed.

(** With an explicit date the calendar is not consulted at all: the
    requests sent are the same too, even for an upstream whose answer
    depends on the request. *)
Lemma explicit_date_ignores_today
    (w1 w2 : world) (name : string) (arguments : dict) :
  (forall rq, requests_get w1 rq = requests_get w2 rq) ->
  (is_prayer_tool name = true -> truthy (get arguments "date") = true) ->
  call_tool w1 name arguments = call_tool w2 name arguments.
Proof.
  intros Hup Hdate. rewrite !call_tool_plan.
  assert (tool_plan w1 name arguments = tool_plan w2 name arguments) as ->.
  { revert Hdate. unfold tool_plan, is_prayer_tool, api_date.
    destruct (String.eqb name "get_prayer_times_by_city");
      [intros ->; reflexivity|].
    destruct (String.eqb name "get_prayer_times_by_coordinates");
      [intros ->; reflexivity|].
    reflexivity. }
  destruct (tool_plan w2 name arguments) as [[[rq render]|e]|]; try reflexivity.
  now rewrite (api_result_same_upstream w1 w2 rq rq (Hup rq)).
Qed.

(** ** Dates *)

Lemma in_range_Z (lo n : nat) (z : Z) :
  Z.of_nat lo <= z < Z.of_nat (lo + n) -> In z (map Z.of_nat (seq lo n)).
Proof.
  intros H. apply in_map_iff. exists (Z.to_nat z). split; [lia|].
  apply in_seq. lia.
Qed.

Lemma digit_char_digit (d : Z) :
  0 <= d <= 9 ->
  is_digit (digit_char d) = true /\ digit_val (digit_char d) = d.
Proof.
  intros H. pose proof (in_range_Z 0 10 d ltac:(simpl; lia)) as Hin.
  simpl in Hin.
  repeat (destruct Hin as [<- | Hin]; [split; reflexivity|]).
  contradiction.
Qed.

Ltac div_lia := Z.div_mod_to_equations; lia.

(** An ASCII digit is read as the decimal digit it is. *)
Lemma re_digit_ascii {A : Type} (k : Z -> string -> option A) (d : Z) (rest : string) :
  0 <= d <= 9 -> re_digit k (String (digit_char d) rest) = k d rest.
Proof.
  intros H. pose proof (in_range_Z 0 10 d ltac:(simpl; lia)) as Hin.
  simpl in Hin.
  repeat (destruct Hin as [<- | Hin]; [reflexivity|]).
  contradiction.
Qed.

Lemma re_Y_pad4 {A : Type} (k : Z -> string -> option A) (y : Z) (rest : string) :
  0 <= y <= 9999 -> re_Y k (pad4 y ++ rest) = k y rest.
Proof.
  intros H. unfold pad4, re_Y. cbn [String.append].
  rewrite !re_digit_ascii by div_lia.
  f_equal. div_lia.
Qed.

Lemma re_month_day_iso (m d : Z) :
  1 <= m <= 12 -> 1 <= d <= 31 ->
  re_month_day ("-" ++ pad2 m ++ "-" ++ pad2 d) = Some (m, d, "").
Proof.
  intros Hm Hd.
  pose proof (in_range_Z 1 12 m ltac:(simpl; lia)) as Im.
  pose proof (in_range_Z 1 31 d ltac:(simpl; lia)) as Id.
  clear Hm Hd. simpl in Im, Id.
  repeat (destruct Im as [<- | Im]; [|]); try contradiction;
    repeat (destruct Id as [<- | Id]; [reflexivity|]); contradiction.
Qed.

(** A calendar date written [YYYY-MM-DD] matches the declared pattern. *)
Lemma iso_date_matches_pattern (d : date) :
  valid_date d = true -> iso_date_pattern (iso_date d) = true.
Proof.
  unfold valid_date. intros H.
  repeat (apply andb_prop in H as [H ?]).
  repeat match goal with
         | X : (_ <=? _) = true |- _ => apply Z.leb_le in X
         end.
  assert (day d <= 31) as H31.
  { unfold days_in_month in *.
    destruct (month d =? 2); [destruct (is_leap (year d)); lia|].
    destruct ((month d =? 4) || (month d =? 6) || (month d =? 9) || (month d =? 11));
      lia. }
  unfold iso_date, iso_date_pattern, pad4, pad2. cbn [String.append].
  destruct (digit_char_digit (year d / 1000) ltac:(div_lia)) as [-> _].
  destruct (digit_char_digit (year d / 100 mod 10) ltac:(div_lia)) as [-> _].
  destruct (digit_char_digit (year d / 10 mod 10) ltac:(div_lia)) as [-> _].
  destruct (digit_char_digit (year d mod 10) ltac:(div_lia)) as [-> _].
  destruct (digit_char_digit (month d / 10) ltac:(div_lia)) as [-> _].
  destruct (digit_char_digit (month d mod 10) ltac:(div_lia)) as [-> _].
  destruct (digit_char_digit (day d / 10) ltac:(div_lia)) as [-> _].
  destruct (digit_char_digit (day d mod 10) ltac:(div_lia)) as [-> _].
  reflexivity.
Qed.

Lemma days_in_month_le (y m : Z) : days_in_month y m <= 31.
Proof.
  unfold days_in_month.
  destruct (m =? 2); [destruct (is_leap y); lia|].
  destruct ((m =? 4) || (m =? 6) || (m =? 9) || (m =? 11)); lia.
Qed.

Lemma valid_date_bounds (d : date) :
  valid_date d = true ->
  1 <= year d <= 9999 /\ 1 <= month d <= 12 /\
  1 <= day d <= days_in_month (year d) (month d).
Proof.
  unfold valid_date. intros H.
  repeat (apply andb_prop in H as [H ?]).
  repeat match goal with
         | X : (_ <=? _) = true |- _ => apply Z.leb_le in X
         end.
  lia.
Qed.

(** [strptime] reads a calendar date written [YYYY-MM-DD] back. *)
Lemma strptime_iso_date (d : date) :
  valid_date d = true -> strptime (PStr (iso_date d)) = Ret d.
Proof.
  intros V. destruct (valid_date_bounds d V) as (Hy & Hm & Hd).
  pose proof (days_in_month_le (year d) (month d)) as Hmax.
  unfold strptime, re_date, iso_date.
  rewrite re_Y_pad4 by lia.
  rewrite re_month_day_iso by lia.
  cbn [String.eqb].
  destruct (Z.eqb_spec (year d) 0) as [E|_]; [lia|].
  destruct (Z.leb_spec (day d) (days_in_month (year d) (month d))); [|lia].
  now destruct d.
Qed.

(** Decimal digits of any script are digits to [strptime]: the year in
    Arabic-Indic digits and a day with one such digit are read, while the
    bracketed classes of the month and of a one-digit day want ASCII. *)
Example strptime_unicode_digits :
  strptime (PStr "٢٠٢٤-07-20") = Ret {| year := 2024; month := 7; day := 20 |} /\
  strptime (PStr "2024-07-1٥") = Ret {| year := 2024; month := 7; day := 15 |} /\
  strptime (PStr "2024-٠7-20") =
  Raise {| exc_type := ValueError;
           exc_str := "time data " ++ repr_str "2024-٠7-20" ++
                      " does not match format '%Y-%m-%d'" |}.
Proof. repeat split. Qed.

Lemma str_of_int_pad4 (y : Z) : 1000 <= y <= 9999 -> str_of_int y = pad4 y.
Proof.
  intros H. pose proof (in_range_Z 1000 (90 * 100) y ltac:(simpl; lia)) as Hin.
  assert (forallb (fun z => String.eqb (str_of_int z) (pad4 z))
            (map Z.of_nat (seq 1000 (90 * 100))) = true) as Hall
    by (vm_compute; reflexivity).
  rewrite forallb_forall in Hall. now apply String.eqb_eq, Hall.
Qed.

Lemma strftime_dd_mm_yyyy (d : date) :
  1000 <= year d <= 9999 -> strftime d = dd_mm_yyyy d.
Proof.
  intros H. unfold strftime, dd_mm_yyyy. now rewrite str_of_int_pad4.
Qed.

Lemma truthy_iso_date (d : date) : truthy (PStr (iso_date d)) = true.
Proof. reflexivity. Qed.

Lemma api_date_sent (w : world) (date_str : pyval) (p : string) :
  date_sent (today w) date_str p -> api_date w date_str = Ret p.
Proof.
  intros [v F Hy | d V Hy]; unfold api_date.
  - rewrite F. cbn [res_bind]. now rewrite strftime_dd_mm_yyyy.
  - rewrite truthy_iso_date, (strptime_iso_date d V). cbn [res_bind].
    destruct (valid_date_bounds d V) as (Hy' & _).
    now rewrite strftime_dd_mm_yyyy by lia.
Qed.

(** C5, as the code has it.  For both prayer-time tools with their required
    arguments present, exactly one request is sent, and its path is the
    tool's endpoint followed by a date in day-month-year order: the current
    local date when no date is given (or an empty one), and the given date
    when it is a calendar date written [YYYY-MM-DD]. *)
Theorem prayer_request_date
    (w : world) (name : string) (arguments : dict) (header p : string) :
  prayer_header name arguments = Some header ->
  date_sent (today w) (get arguments "date") p ->
  exists params,
    snd (call_tool w name arguments) =
    [api_request (prayer_endpoint name ++ p) (Some params)].
Proof.
  intros Hh Hs. apply api_date_sent in Hs.
  destruct (tool_plan_prayer w name arguments header p Hh Hs)
    as (endpoint & params & P & ->).
  exists params. rewrite call_tool_plan, P. reflexivity.
Qed.

(** * Further properties of the server *)

(** ** Catalog and dispatcher *)

Lemma not_in_catalog (tool : string) :
  ~ In tool catalog_names ->
  String.eqb tool "get_prayer_times_by_city" = false /\
  String.eqb tool "get_prayer_times_by_coordinates" = false /\
  String.eqb tool "convert_gregorian_to_hijri" = false /\
  String.eqb tool "get_qibla_direction" = false /\
  String.eqb tool "get_calculation_methods" = false.
Proof.
  intros H.
  repeat split; apply String.eqb_neq; intros ->; apply H; simpl; tauto.
Qed.

(** X4.  A name that the catalog does not advertise is answered with
    ["Unknown tool: "] and the name, and nothing is requested. *)
Theorem unknown_tool_reply (w : world) (tool : string) (arguments : dict) :
  ~ In tool catalog_names ->
  call_tool w tool arguments =
  (Ret (text_reply ("Unknown tool: " ++ tool)), []).
Proof.
  intros H. destruct (not_in_catalog tool H) as (E1 & E2 & E3 & E4 & E5).
  rewrite call_tool_plan. unfold tool_plan. now rewrite E1, E2, E3, E4, E5.
Qed.

(** An advertised tool whose arguments raise nothing builds its request and
    renders the answer with its own renderer. *)
Lemma plan_built (w : world) (tool : string) (arguments : dict) :
  In tool catalog_names ->
  request_error tool arguments = None ->
  exists rq, tool_plan w tool arguments = Some (Ret (rq, renderer_of tool arguments)).
Proof.
  intros Hin. unfold request_error. rewrite required_fields_cases.
  unfold renderer_of, is_prayer_tool, tool_plan, prayer_header, getitem, api_date, get.
  destruct (String.eqb tool "get_prayer_times_by_city") eqn:E1.
  { rewrite first_missing_two.
    destruct (lookup "city" arguments) as [city|]; [|discriminate].
    destruct (lookup "country" arguments) as [country|]; [|discriminate].
    cbn [orb andb res_bind].
    destruct (truthy _); cbn [res_bind]; [|intros _; now eexists].
    destruct (strptime _); [intros _; now eexists | discriminate]. }
  destruct (String.eqb tool "get_prayer_times_by_coordinates") eqn:E2.
  { rewrite first_missing_two.
    destruct (lookup "latitude" arguments) as [latitude|]; [|discriminate].
    destruct (lookup "longitude" arguments) as [longitude|]; [|discriminate].
    cbn [orb andb res_bind].
    destruct (truthy _); cbn [res_bind]; [|intros _; now eexists].
    destruct (strptime _); [intros _; now eexists | discriminate]. }
  destruct (String.eqb tool "convert_gregorian_to_hijri") eqn:E3.
  { unfold first_missing, has_key.
    destruct (lookup "date" arguments) as [d|]; [|discriminate].
    intros _. now eexists. }
  destruct (String.eqb tool "get_qibla_direction") eqn:E4.
  { rewrite first_missing_two.
    destruct (lookup "latitude" arguments) as [latitude|]; [|discriminate].
    destruct (lookup "longitude" arguments) as [longitude|]; [|discriminate].
    intros _. now eexists. }
  destruct (String.eqb tool "get_calculation_methods") eqn:E5.
  { intros _. now eexists. }
  exfalso. revert Hin. simpl.
  apply String.eqb_neq in E1, E2, E3, E4, E5.
  intuition congruence.
Qed.

Lemma call_tool_built (w : world) (tool : string) (arguments : dict) :
  In tool catalog_names ->
  request_error tool arguments = None ->
  exists rq,
    call_tool w tool arguments =
    (guarded tool (res_bind (api_result w rq) (renderer_of tool arguments)), [rq]).
Proof.
  intros Hin Hreq. destruct (plan_built w tool arguments Hin Hreq) as [rq P].
  exists rq. now rewrite call_tool_plan, P.
Qed.

(** X5.  For an advertised tool whose required fields are present and
    whose date, if one is parsed, is accepted, exactly one request is
    sent. *)
Theorem valid_arguments_send_one_request
    (w : world) (tool : string) (arguments : dict) :
  In tool catalog_names ->
  request_error tool arguments = None ->
  exists rq, snd (call_tool w tool arguments) = [rq].
Proof.
  intros Hin Hreq. destruct (call_tool_built w tool arguments Hin Hreq) as [rq ->].
  now exists rq.
Qed.

Lemma plan_request (w : world) (tool : string) (arguments : dict)
    (rq : request) (render : pyval -> res (list TextContent)) :
  tool_plan w tool arguments = Some (Ret (rq, render)) ->
  exists endpoint params, rq = api_request endpoint params.
Proof. intros H. plan_cases H; now eexists _, _. Qed.

Lemma prefix_append (a b : string) : String.prefix a (a ++ b) = true.
Proof.
  induction a as [|x a IH]; simpl; [now destruct b|].
  destruct (ascii_dec x x) as [_|N]; [exact IH | now contradiction N].
Qed.

(** X3.  Whatever the tool, the arguments and the upstream do, one
    invocation sends at most one request, and a request that is sent goes to
    the configured base URL with a timeout of 10. *)
Theorem requests_are_bounded (w : world) (tool : string) (arguments : dict) :
  (List.length (snd (call_tool w tool arguments)) <= 1)%nat /\
  forall rq, In rq (snd (call_tool w tool arguments)) ->
             req_timeout rq = 10 /\
             String.prefix (ALADHAN_API_BASE_URL ++ "/") (req_url rq) = true.
Proof.
  rewrite call_tool_plan.
  destruct (tool_plan w tool arguments) as [[[rq render]|e]|] eqn:P; cbn [snd].
  - split; [simpl; lia|]. intros rq' [<-|[]].
    destruct (plan_request w tool arguments rq render P) as (endpoint & params & ->).
    split; [reflexivity|].
    unfold api_request. cbn [req_url]. rewrite <- append_assoc.
    apply prefix_append.
  - split; [simpl; lia | intros rq []].
  - split; [simpl; lia | intros rq []].
Qed.

(** ** The client on success and on exceptions it does not convert *)

(** X1.  When the request succeeds, the status is accepted and the body
    decodes, the client returns the decoded document unchanged, whatever its
    shape, after sending its one request. *)
Theorem call_aladhan_api_success
    (w : world) (endpoint : string) (params : option dict) (log : list request)
    (resp : response) (u : unit) (v : pyval) :
  requests_get w (api_request endpoint params) = Ret resp ->
  raise_for_status resp = Ret u ->
  json resp = Ret v ->
  call_aladhan_api w endpoint params log =
  (Ret v, (log ++ [api_request endpoint params])%list).
Proof.
  intros G S J. rewrite call_aladhan_api_result. unfold api_result.
  now rewrite G, S, J.
Qed.

Lemma api_result_uncaught (w : world) (rq : request) (e : exn) :
  uncaught_failure w rq e -> api_result w rq = Raise e.
Proof.
  unfold api_result, recover.
  intros [G R V | resp G S R V | resp u G S J R V].
  - now rewrite G, R, V.
  - now rewrite G, S, R, V.
  - now rewrite G, S, J, R, V.
Qed.

(** X2.  An exception of the upstream call that is neither a
    [RequestException] nor a [ValueError] passes through the client, is
    caught by the outer clause of the handler, and is reported as
    ["Error executing "], the tool name, [": "] and its message; the one
    request has been sent. *)
Theorem unconverted_exception_reply
    (w : world) (tool : string) (arguments : dict) (e : exn) :
  In tool catalog_names ->
  request_error tool arguments = None ->
  (forall rq, uncaught_failure w rq e) ->
  exists rq,
    call_tool w tool arguments =
    (Ret (text_reply ("Error executing " ++ tool ++ ": " ++ exc_str e)), [rq]).
Proof.
  intros Hin Hreq Hup.
  destruct (call_tool_built w tool arguments Hin Hreq) as [rq ->].
  exists rq. now rewrite (api_result_uncaught w rq e (Hup rq)).
Qed.

(** ** Results of an unexpected shape *)

Lemma contains_scalar (k : string) (v : pyval) :
  is_scalar v = true -> contains k v = Raise (not_iterable v).
Proof. destruct v; try discriminate; reflexivity. Qed.

Lemma renderer_of_scalar (tool : string) (arguments : dict) (v : pyval) :
  is_scalar v = true -> renderer_of tool arguments v = Raise (not_iterable v).
Proof.
  intros H. unfold renderer_of.
  destruct (is_prayer_tool tool);
    [|destruct (String.eqb tool "convert_gregorian_to_hijri");
      [|destruct (String.eqb tool "get_qibla_direction")]];
    unfold render_prayer_times, render_hijri, render_qibla, render_methods;
    now rewrite (contains_scalar _ _ H).
Qed.

(** X13.  When the upstream document is [null], a boolean or a number, the
    test ["error" in result] raises, and every tool answers with the
    [TypeError] through the outer clause. *)
Theorem scalar_result_reply
    (w : world) (tool : string) (arguments : dict) (v : pyval) :
  In tool catalog_names ->
  request_error tool arguments = None ->
  answers w v ->
  is_scalar v = true ->
  fst (call_tool w tool arguments) =
  Ret (text_reply ("Error executing " ++ tool ++ ": argument of type '" ++
                   type_name v ++ "' is not iterable")).
Proof.
  intros Hin Hreq Hup Hs.
  destruct (call_tool_built w tool arguments Hin Hreq) as [rq ->].
  cbn [fst]. rewrite (Hup rq). cbn [res_bind].
  now rewrite (renderer_of_scalar tool arguments v Hs).
Qed.

Lemma renderer_of_lacks_data (tool : string) (arguments : dict) (r : dict) :
  lookup "error" r = None ->
  lacks_data tool r = true ->
  renderer_of tool arguments (PDict r) = Ret (text_reply (no_data_message tool)).
Proof.
  intros He. unfold lacks_data, data_key, renderer_of, no_data_message.
  destruct (lookup "data" r) as [[| | | | | |data]|] eqn:D; try discriminate.
  - (* [data] is a mapping without the key *)
    destruct (is_prayer_tool tool);
      [|destruct (String.eqb tool "convert_gregorian_to_hijri");
        [|destruct (String.eqb tool "get_qibla_direction")]];
      try discriminate;
      intros H; apply negb_true_iff in H;
      unfold render_prayer_times, render_hijri, render_qibla, contains, getitem;
      rewrite (has_key_none _ _ He), (has_key_lookup _ _ _ D), D;
      cbn [res_bind]; now rewrite H.
  - (* no [data] at all *)
    intros _.
    destruct (is_prayer_tool tool);
      [|destruct (String.eqb tool "convert_gregorian_to_hijri");
        [|destruct (String.eqb tool "get_qibla_direction")]];
      unfold render_prayer_times, render_hijri, render_qibla, render_methods,
        contains, getitem;
      now rewrite (has_key_none _ _ He), (has_key_none _ _ D).
Qed.

(** X8.  When the upstream document is a mapping with no [error] key that
    has no [data], or whose [data] is a mapping without the key the tool
    reads ([timings], [hijri] or [direction]), the reply is the tool's fixed
    "no data" text, not an error. *)
Theorem no_data_reply
    (w : world) (tool : string) (arguments : dict) (r : dict) :
  In tool catalog_names ->
  request_error tool arguments = None ->
  answers w (PDict r) ->
  lookup "error" r = None ->
  lacks_data tool r = true ->
  fst (call_tool w tool arguments) = Ret (text_reply (no_data_message tool)).
Proof.
  intros Hin Hreq Hup He Hl.
  destruct (call_tool_built w tool arguments Hin Hreq) as [rq ->].
  cbn [fst]. rewrite (Hup rq). cbn [res_bind].
  now rewrite (renderer_of_lacks_data tool arguments r He Hl).
Qed.

(** ** The request of the prayer-time tools *)

Lemma tool_plan_prayer_query (w : world) (tool : string) (arguments : dict)
    (header p : string) :
  prayer_header tool arguments = Some header ->
  api_date w (get arguments "date") = Ret p ->
  tool_plan w tool arguments =
  Some (Ret (api_request (prayer_endpoint tool ++ p)
               (Some (add_optional (required_items tool arguments)
                        (get arguments "method") (get arguments "school"))),
             render_prayer_times header)).
Proof.
  unfold prayer_header, tool_plan, getitem, required_items, prayer_endpoint.
  rewrite required_fields_cases. intros H D.
  destruct (String.eqb tool "get_prayer_times_by_city").
  { destruct (lookup "city" arguments) as [city|] eqn:A; [|discriminate].
    destruct (lookup "country" arguments) as [country|] eqn:B; [|discriminate].
    injection H as <-. cbn [res_bind map]. rewrite D. cbn [res_bind].
    unfold get at 3 4. now rewrite A, B. }
  destruct (String.eqb tool "get_prayer_times_by_coordinates"); [|discriminate].
  destruct (lookup "latitude" arguments) as [latitude|] eqn:A; [|discriminate].
  destruct (lookup "longitude" arguments) as [longitude|] eqn:B; [|discriminate].
  injection H as <-. cbn [res_bind map]. rewrite D. cbn [res_bind].
  unfold get at 3 4. now rewrite A, B.
Qed.

Lemma tool_plan_prayer_error (w : world) (tool : string) (arguments : dict)
    (header : string) (e : exn) :
  prayer_header tool arguments = Some header ->
  api_date w (get arguments "date") = Raise e ->
  tool_plan w tool arguments = Some (Raise e).
Proof.
  unfold prayer_header, tool_plan, getitem. intros H D.
  destruct (String.eqb tool "get_prayer_times_by_city").
  { destruct (lookup "city" arguments) as [city|]; [|discriminate].
    destruct (lookup "country" arguments) as [country|]; [|discriminate].
    cbn [res_bind]. now rewrite D. }
  destruct (String.eqb tool "get_prayer_times_by_coordinates"); [|discriminate].
  destruct (lookup "latitude" arguments) as [latitude|]; [|discriminate].
  destruct (lookup "longitude" arguments) as [longitude|]; [|discriminate].
  cbn [res_bind]. now rewrite D.
Qed.

Lemma lookup_setitem_same (d : dict) (k : string) (v : pyval) :
  lookup k (setitem d k v) = Some v.
Proof.
  induction d as [|[k' v'] d IH]; simpl.
  - now rewrite String.eqb_refl.
  - destruct (String.eqb k k') eqn:E; simpl; now rewrite E.
Qed.

Lemma lookup_setitem_other (d : dict) (k k' : string) (v : pyval) :
  k <> k' -> lookup k (setitem d k' v) = lookup k d.
Proof.
  intros N. induction d as [|[k0 v0] d IH]; simpl.
  - apply String.eqb_neq in N. now rewrite N.
  - destruct (String.eqb k' k0) eqn:E; simpl.
    + apply String.eqb_eq in E. subst k0.
      apply String.eqb_neq in N. now rewrite N.
    + now rewrite IH.
Qed.

Lemma lookup_add_optional (base : dict) (method school : pyval) (k : string) :
  lookup "method" base = None -> lookup "school" base = None ->
  lookup k (add_optional base method school) =
  if String.eqb k "method" then (if is_None method then None else Some method)
  else if String.eqb k "school" then (if is_None school then None else Some school)
  else lookup k base.
Proof.
  intros Hm Hs. unfold add_optional.
  destruct (String.eqb_spec k "method") as [->|Nm].
  - destruct (is_None school).
    + destruct (is_None method); [exact Hm | apply lookup_setitem_same].
    + rewrite lookup_setitem_other by discriminate.
      destruct (is_None method); [exact Hm | apply lookup_setitem_same].
  - destruct (String.eqb_spec k "school") as [->|Ns].
    + destruct (is_None school); [|apply lookup_setitem_same].
      destruct (is_None method); [exact Hs|].
      now rewrite lookup_setitem_other by discriminate.
    + destruct (is_None school); [|rewrite lookup_setitem_other by assumption];
        (destruct (is_None method); [reflexivity|]);
        now rewrite lookup_setitem_other by assumption.
Qed.

Lemma lookup_required_items (tool : string) (arguments : dict) (k : string) :
  lookup k (required_items tool arguments) =
  if existsb (String.eqb k) (required_fields tool)
  then Some (get arguments k) else None.
Proof.
  unfold required_items.
  induction (required_fields tool) as [|f fs IH]; simpl; [reflexivity|].
  destruct (String.eqb_spec k f) as [->|N]; simpl; [reflexivity | exact IH].
Qed.

(** X6.  The query of a prayer-time request holds the required fields with
    the values given, [method] and [school] exactly when they are given and
    not null (a zero is sent), and nothing else: the date travels in the
    path, and no other argument is forwarded. *)
Theorem prayer_query_parameters
    (w : world) (tool : string) (arguments : dict) (header p : string) :
  prayer_header tool arguments = Some header ->
  api_date w (get arguments "date") = Ret p ->
  exists params,
    snd (call_tool w tool arguments) =
    [api_request (prayer_endpoint tool ++ p) (Some params)] /\
    forall k,
      lookup k params =
      if String.eqb k "method" then optional_value arguments "method"
      else if String.eqb k "school" then optional_value arguments "school"
      else if existsb (String.eqb k) (required_fields tool)
           then lookup k arguments
           else None.
Proof.
  intros Hh Hd. eexists. split.
  - rewrite call_tool_plan,
      (tool_plan_prayer_query w tool arguments header p Hh Hd). reflexivity.
  - intros k. unfold optional_value.
    assert (forall f, existsb (String.eqb f) (required_fields tool) = true ->
                      exists v, lookup f arguments = Some v) as Hreq.
    { revert Hh. unfold prayer_header. rewrite required_fields_cases.
      destruct (String.eqb tool "get_prayer_times_by_city").
      - destruct (lookup "city" arguments) as [city|] eqn:A; [|discriminate].
        destruct (lookup "country" arguments) as [country|] eqn:B; [|discriminate].
        intros _ f. simpl. rewrite !orb_true_iff, !String.eqb_eq.
        intros [->|[->|?]]; eauto; discriminate.
      - destruct (String.eqb tool "get_prayer_times_by_coordinates");
          [|discriminate].
        destruct (lookup "latitude" arguments) as [latitude|] eqn:A; [|discriminate].
        destruct (lookup "longitude" arguments) as [longitude|] eqn:B;
          [|discriminate].
        intros _ f. simpl. rewrite !orb_true_iff, !String.eqb_eq.
        intros [->|[->|?]]; eauto; discriminate. }
    assert (forall f, existsb (String.eqb f) (required_fields tool) = true ->
                      f <> "method" /\ f <> "school") as Hnot.
    { intros f. rewrite required_fields_cases.
      repeat match goal with
             | |- context [if String.eqb tool ?s then _ else _] =>
                 destruct (String.eqb tool s)
             end; simpl; rewrite ?orb_true_iff, ?String.eqb_eq;
        intuition (subst; discriminate). }
    rewrite lookup_add_optional.
    + destruct (String.eqb k "method"); [reflexivity|].
      destruct (String.eqb k "school"); [reflexivity|].
      rewrite lookup_required_items.
      destruct (existsb (String.eqb k) (required_fields tool)) eqn:E; [|reflexivity].
      destruct (Hreq k E) as [v Hv]. unfold get. now rewrite Hv.
    + rewrite lookup_required_items.
      destruct (existsb (String.eqb "method") (required_fields tool)) eqn:E;
        [|reflexivity].
      destruct (Hnot _ E) as [N _]. now contradiction N.
    + rewrite lookup_required_items.
      destruct (existsb (String.eqb "school") (required_fields tool)) eqn:E;
        [|reflexivity].
      destruct (Hnot _ E) as [_ N]. now contradiction N.
Qed.

(** ** Dates the parser accepts and rejects *)

Lemma re_month_day_lenient (m d : Z) :
  1 <= m <= 12 -> 1 <= d <= 31 ->
  re_month_day ("-" ++ str_of_int m ++ "-" ++ str_of_int d) = Some (m, d, "").
Proof.
  intros Hm Hd.
  pose proof (in_range_Z 1 12 m ltac:(simpl; lia)) as Im.
  pose proof (in_range_Z 1 31 d ltac:(simpl; lia)) as Id.
  clear Hm Hd. simpl in Im, Id.
  repeat (destruct Im as [<- | Im]; [|]); try contradiction;
    repeat (destruct Id as [<- | Id]; [reflexivity|]); contradiction.
Qed.

Lemma strptime_lenient_date (d : date) :
  valid_date d = true -> strptime (PStr (lenient_date d)) = Ret d.
Proof.
  intros V. destruct (valid_date_bounds d V) as (Hy & Hm & Hd).
  pose proof (days_in_month_le (year d) (month d)) as Hmax.
  unfold strptime, re_date, lenient_date.
  rewrite re_Y_pad4 by lia.
  rewrite re_month_day_lenient by lia.
  cbn [String.eqb].
  destruct (Z.eqb_spec (year d) 0) as [E|_]; [lia|].
  destruct (Z.leb_spec (day d) (days_in_month (year d) (month d))); [|lia].
  now destruct d.
Qed.

(** X9.  A date given with the month or the day as a plain number, without
    leading zeros, is accepted by the prayer-time tools and sent in the same
    zero-padded day-month-year form as its [YYYY-MM-DD] spelling. *)
Theorem lenient_date_is_normalised
    (w : world) (tool : string) (arguments : dict) (header : string) (d : date) :
  prayer_header tool arguments = Some header ->
  get arguments "date" = PStr (lenient_date d) ->
  valid_date d = true ->
  1000 <= year d ->
  exists params,
    snd (call_tool w tool arguments) =
    [api_request (prayer_endpoint tool ++ dd_mm_yyyy d) (Some params)].
Proof.
  intros Hh Hg V Hy. eexists.
  destruct (valid_date_bounds d V) as (Hy' & _).
  rewrite call_tool_plan,
    (tool_plan_prayer_query w tool arguments header (dd_mm_yyyy d) Hh).
  - reflexivity.
  - rewrite Hg. unfold api_date.
    replace (truthy (PStr (lenient_date d))) with true by reflexivity.
    rewrite (strptime_lenient_date d V). cbn [res_bind].
    now rewrite strftime_dd_mm_yyyy by lia.
Qed.

Lemma strptime_day_out_of_range (d : date) :
  1 <= year d <= 9999 -> 1 <= month d <= 12 ->
  days_in_month (year d) (month d) < day d <= 31 ->
  strptime (PStr (iso_date d)) =
  Raise {| exc_type := ValueError; exc_str := "day is out of range for month" |}.
Proof.
  intros Hy Hm Hd.
  assert (28 <= days_in_month (year d) (month d)) as Hmin.
  { unfold days_in_month.
    destruct (month d =? 2); [destruct (is_leap (year d)); lia|].
    destruct ((month d =? 4) || (month d =? 6) || (month d =? 9) || (month d =? 11));
      lia. }
  unfold strptime, re_date, iso_date.
  rewrite re_Y_pad4 by lia.
  rewrite re_month_day_iso by lia.
  cbn [String.eqb].
  destruct (Z.eqb_spec (year d) 0) as [E|_]; [lia|].
  destruct (Z.leb_spec (day d) (days_in_month (year d) (month d))); [lia|].
  reflexivity.
Qed.

(** X10.  A date in the form [YYYY-MM-DD] whose day does not exist in its
    month (the 31st of a 30-day month, the 30th of February, the 29th of
    February outside a leap year) is rejected by the prayer-time tools: the
    reply is the error of the outer clause and no request is sent. *)
Theorem nonexistent_day_rejected
    (w : world) (tool : string) (arguments : dict) (header : string) (d : date) :
  prayer_header tool arguments = Some header ->
  get arguments "date" = PStr (iso_date d) ->
  1 <= year d <= 9999 -> 1 <= month d <= 12 ->
  days_in_month (year d) (month d) < day d <= 31 ->
  call_tool w tool arguments =
  (Ret (text_reply ("Error executing " ++ tool ++
                    ": day is out of range for month")), []).
Proof.
  intros Hh Hg Hy Hm Hd.
  rewrite call_tool_plan,
    (tool_plan_prayer_error w tool arguments header
       {| exc_type := ValueError; exc_str := "day is out of range for month" |} Hh).
  - reflexivity.
  - rewrite Hg. apply api_date_error; [reflexivity|].
    now apply strptime_day_out_of_range.
Qed.

(** ** Qibla replies outside the documented range *)

(** X11.  For every float the upstream gives as [data.direction], NaN and
    the infinities included, the reply is the Qibla text with the bearing
    printed with two decimals and the label of lines 304-319; no float makes
    the tool fail. *)
Theorem qibla_float_reply
    (w : world) (arguments : dict) (latitude longitude : pyval)
    (r data : dict) (f : spec_float) :
  lookup "latitude" arguments = Some latitude ->
  lookup "longitude" arguments = Some longitude ->
  answers w (PDict r) ->
  lookup "error" r = None ->
  lookup "data" r = Some (PDict data) ->
  lookup "direction" data = Some (PFloat f) ->
  valid_binary prec64 emax64 f = true ->
  fst (call_tool w "get_qibla_direction" arguments) =
  Ret (text_reply
         (qibla_text latitude longitude (float_format_2f f)
            (compass_of_value (number_value (NumFloat f))))).
Proof.
  intros Hlat Hlon Hup He Hd Hdir Hv.
  rewrite call_tool_plan, tool_plan_qibla. unfold getitem at 1 2.
  rewrite Hlat, Hlon. cbn [res_bind fst]. rewrite Hup. cbn [res_bind].
  rewrite (render_qibla_direction latitude longitude r data (PFloat f)
             (float_format_2f f) (compass_of_value (number_value (NumFloat f)))
             He Hd Hdir).
  - reflexivity.
  - reflexivity.
  - now apply compass_of_number.
Qed.

(** X12.  When [data.direction] cannot be printed with two decimals (a
    string, [null], a list, a mapping, or an integer beyond the range of a
    float), the reply carries no bearing and no label: it is the error of
    the outer clause with the message of the formatting failure. *)
Theorem qibla_unprintable_direction
    (w : world) (arguments : dict) (latitude longitude : pyval)
    (r data : dict) (direction : pyval) (e : exn) :
  lookup "latitude" arguments = Some latitude ->
  lookup "longitude" arguments = Some longitude ->
  answers w (PDict r) ->
  lookup "error" r = None ->
  lookup "data" r = Some (PDict data) ->
  lookup "direction" data = Some direction ->
  format_2f direction = Raise e ->
  fst (call_tool w "get_qibla_direction" arguments) =
  Ret (text_reply ("Error executing get_qibla_direction: " ++ exc_str e)).
Proof.
  intros Hlat Hlon Hup He Hd Hdir Hf.
  rewrite call_tool_plan, tool_plan_qibla. unfold getitem at 1 2.
  rewrite Hlat, Hlon. cbn [res_bind fst]. rewrite Hup. cbn [res_bind].
  unfold render_qibla, contains, getitem.
  rewrite (has_key_none _ _ He), (has_key_lookup _ _ _ Hd), Hd.
  cbn [res_bind]. rewrite (has_key_lookup _ _ _ Hdir), Hdir. cbn [res_bind].
  now rewrite Hf.
Qed.

Lemma format_2f_not_a_number (direction : pyval) :
  as_number direction = None -> exists e, format_2f direction = Raise e.
Proof. destruct direction; try discriminate; intros _; now eexists. Qed.

(** ** Prayer times and dates of an incomplete shape *)

(** X14.  A prayer-times answer that has [data.timings] but no [data.date]
    is not rendered: the lookup of [date] raises, and the reply is the error
    of the outer clause naming the missing key. *)
Theorem timings_without_date
    (w : world) (tool : string) (arguments : dict) (header p : string)
    (r data : dict) (timings : pyval) :
  prayer_header tool arguments = Some header ->
  api_date w (get arguments "date") = Ret p ->
  answers w (PDict r) ->
  lookup "error" r = None ->
  lookup "data" r = Some (PDict data) ->
  lookup "timings" data = Some timings ->
  lookup "date" data = None ->
  fst (call_tool w tool arguments) =
  Ret (text_reply ("Error executing " ++ tool ++ ": 'date'")).
Proof.
  intros Hh Hdate Hup He Hd Ht Hnone.
  rewrite call_tool_plan,
    (tool_plan_prayer_query w tool arguments header p Hh Hdate).
  cbn [fst]. rewrite Hup. cbn [res_bind].
  unfold render_prayer_times, contains, getitem.
  rewrite (has_key_none _ _ He), (has_key_lookup _ _ _ Hd), Hd.
  cbn [res_bind]. rewrite (has_key_lookup _ _ _ Ht), Ht, Hnone.
  reflexivity.
Qed.

(** X7.  [convert_gregorian_to_hijri] forwards its [date] argument as it
    is, without parsing it, as the only query parameter of [gToH]; for an
    answer with [data.hijri] and [data.gregorian] of the expected shape the
    reply is the four-line conversion text. *)
Theorem hijri_conversion_reply
    (w : world) (arguments : dict) (date_str : pyval)
    (r data hijri gregorian g_month h_month weekday : dict)
    (g_date g_month_en g_year h_date h_month_en h_year h_month_ar weekday_en : pyval) :
  lookup "date" arguments = Some date_str ->
  answers w (PDict r) ->
  lookup "error" r = None ->
  lookup "data" r = Some (PDict data) ->
  lookup "hijri" data = Some (PDict hijri) ->
  lookup "gregorian" data = Some (PDict gregorian) ->
  lookup "date" gregorian = Some g_date ->
  lookup "month" gregorian = Some (PDict g_month) ->
  lookup "en" g_month = Some g_month_en ->
  lookup "year" gregorian = Some g_year ->
  lookup "date" hijri = Some h_date ->
  lookup "month" hijri = Some (PDict h_month) ->
  lookup "en" h_month = Some h_month_en ->
  lookup "ar" h_month = Some h_month_ar ->
  lookup "year" hijri = Some h_year ->
  lookup "weekday" hijri = Some (PDict weekday) ->
  lookup "en" weekday = Some weekday_en ->
  call_tool w "convert_gregorian_to_hijri" arguments =
  (Ret (text_reply
          (hijri_text g_date g_month_en g_year h_date h_month_en h_year
             h_month_ar weekday_en)),
   [api_request "gToH" (Some [("date", date_str)])]).
Proof.
  intros Hdate Hup He Hd Hh Hg G1 G2 G3 G4 H1 H2 H3 H4 H5 H6 H7.
  rewrite call_tool_plan.
  change (tool_plan w "convert_gregorian_to_hijri" arguments)
    with (Some (let* date_str := getitem (PDict arguments) "date" in
                Ret (api_request "gToH" (Some [("date", date_str)]), render_hijri))).
  unfold getitem at 1. rewrite Hdate. cbn [res_bind]. rewrite Hup.
  cbn [res_bind]. unfold render_hijri, contains, getitem.
  rewrite (has_key_none _ _ He), (has_key_lookup _ _ _ Hd), Hd.
  cbn [res_bind]. rewrite (has_key_lookup _ _ _ Hh), Hh, Hg. cbn [res_bind].
  rewrite G1, G2. cbn [res_bind]. rewrite G3, G4. cbn [res_bind].
  rewrite H1, H2. cbn [res_bind]. rewrite H3, H4, H5. cbn [res_bind].
  rewrite H6. cbn [res_bind]. rewrite H7. cbn [res_bind guarded].
  unfold hijri_text. now rewrite !append_assoc.
Qed.

(** X17.  When [data] of the methods answer is not a mapping, [items] does
    not exist on it and the reply is the error of the outer clause. *)
Theorem methods_data_not_a_mapping
    (w : world) (arguments : dict) (r : dict) (methods : pyval) :
  answers w (PDict r) ->
  lookup "error" r = None ->
  lookup "data" r = Some methods ->
  is_dict methods = false ->
  fst (call_tool w "get_calculation_methods" arguments) =
  Ret (text_reply ("Error executing get_calculation_methods: '" ++
                   type_name methods ++ "' object has no attribute 'items'")).
Proof.
  intros Hup He Hd Hm. rewrite call_tool_plan.
  change (tool_plan w "get_calculation_methods" arguments)
    with (Some (Ret (api_request "methods" None, render_methods))).
  cbn [fst]. rewrite Hup. cbn [res_bind].
  unfold render_methods, contains, getitem.
  rewrite (has_key_none _ _ He), (has_key_lookup _ _ _ Hd), Hd.
  cbn [res_bind]. destruct methods; try discriminate; reflexivity.
Qed.

End Runtime.

(** * Examples and counterexamples *)

Local Abbreviation run := (call_tool example_repr_float example_repr_str).
Local Abbreviation rf := example_repr_float.
Local Abbreviation rs := example_repr_str.

(** A bearing of 44.9 degrees is in the Northeast sector. *)
Lemma qibla_compass_sector_witness :
  exists bearing,
    format_2f (PFloat (decimal_literal 449 1)) = Ret bearing /\
    fst (run (world_answering a_day (direction_doc (PFloat (decimal_literal 449 1))))
             "get_qibla_direction" here) =
    Ret (text_reply (qibla_text rf rs (PInt 51) (PInt 0) bearing "Northeast")).
Proof.
  apply (qibla_compass_sector rf rs
           (world_answering a_day (direction_doc (PFloat (decimal_literal 449 1))))
           here (PInt 51) (PInt 0)
           [("data", PDict [("direction", PFloat (decimal_literal 449 1))])]
           [("direction", PFloat (decimal_literal 449 1))]
           (PFloat (decimal_literal 449 1))
           (NumFloat (decimal_literal 449 1))
           (SF2Q (decimal_literal 449 1)));
    try reflexivity.
  unfold Qle. vm_compute. discriminate.
Defined.

(** Minus five degrees and 360 degrees are both labelled North. *)
Lemma compass_of_total_witness :
  (exists label,
     compass_of (PInt (-5)) = Ret label /\ In label compass_labels /\
     (x_ltb (XFin (inject_Z (-5))) 22.5 = true -> label = "North") /\
     (x_geb (XFin (inject_Z (-5))) 337.5 = true -> label = "North")) /\
  (exists label,
     compass_of (PFloat (float_of_int 360)) = Ret label /\
     In label compass_labels /\
     (x_ltb (XFin (SF2Q (float_of_int 360))) 22.5 = true -> label = "North") /\
     (x_geb (XFin (SF2Q (float_of_int 360))) 337.5 = true -> label = "North")).
Proof.
  split.
  - apply (compass_of_total (PInt (-5)) (NumInt (-5))); reflexivity.
  - apply (compass_of_total (PFloat (float_of_int 360))
             (NumFloat (float_of_int 360))); reflexivity.
Defined.

(** The example of the specification: a Fajr line, then a Sunrise line, and
    no line for [Junk]. *)
Lemma prayer_lines_in_upstream_order_witness :
  fst (run (world_answering a_day (timings_doc timings_with_junk))
           "get_prayer_times_by_city" london) =
  Ret (text_reply
         ("🕌 Prayer Times for London, UK" ++ nl ++
          "📅 Date: 20 Jul 2024 (14-01-1446 Muharram 1446 AH)" ++ nl ++ nl ++
          "🌅 Fajr (Dawn): 05:00" ++ nl ++
          "☀️ Sunrise: 06:00" ++ nl)).
Proof.
  apply (prayer_lines_in_upstream_order rf rs
           (world_answering a_day (timings_doc timings_with_junk))
           "get_prayer_times_by_city" london
           ("🕌 Prayer Times for London, UK" ++ nl) "09-03-2025"
           [("data", PDict [("timings", PDict timings_with_junk);
                            ("date", sample_date_info)])]
           [("timings", PDict timings_with_junk); ("date", sample_date_info)]
           timings_with_junk sample_date_info
           ("📅 Date: 20 Jul 2024 (14-01-1446 Muharram 1446 AH)" ++ nl ++ nl));
    try reflexivity.
  intros rq. reflexivity.
Defined.

(** C3 as stated fails: when the upstream lists Sunrise before Fajr, so
    does the reply, while the fixed order puts Fajr first. *)
Lemma prayer_lines_fixed_order_counterexample :
  fst (run (world_answering a_day (timings_doc timings_sunrise_first))
           "get_prayer_times_by_city" london) =
  Ret (text_reply
         ("🕌 Prayer Times for London, UK" ++ nl ++
          "📅 Date: 20 Jul 2024 (14-01-1446 Muharram 1446 AH)" ++ nl ++ nl ++
          "☀️ Sunrise: 06:00" ++ nl ++
          "🌅 Fajr (Dawn): 05:00" ++ nl)) /\
  fixed_order_lines rf rs timings_sunrise_first =
  "🌅 Fajr (Dawn): 05:00" ++ nl ++ "☀️ Sunrise: 06:00" ++ nl /\
  fst (run (world_answering a_day (timings_doc timings_sunrise_first))
           "get_prayer_times_by_city" london) <>
  Ret (text_reply
         ("🕌 Prayer Times for London, UK" ++ nl ++
          "📅 Date: 20 Jul 2024 (14-01-1446 Muharram 1446 AH)" ++ nl ++ nl ++
          fixed_order_lines rf rs timings_sunrise_first)).
Proof.
  split; [|split].
  - vm_compute. reflexivity.
  - vm_compute. reflexivity.
  - vm_compute. discriminate.
Qed.

(** A read timeout and a status 404 become the error record with its
    [details]. *)
Lemma call_aladhan_api_failure_witness :
  call_aladhan_api (world_timing_out a_day) "methods" None [] =
  (Ret (PDict [("error", PStr "HTTPConnectionPool(host='api.aladhan.com', port=80): Read timed out. (read timeout=10)");
               ("details", PStr "Failed to connect to Aladhan API")]),
   [api_request "methods" None]) /\
  call_aladhan_api (world_replying a_day not_found) "metods" None [] =
  (Ret (PDict [("error", PStr "404 Client Error: Not Found for url: http://api.aladhan.com/v1/metods");
               ("details", PStr "Failed to connect to Aladhan API")]),
   [api_request "metods" None]).
Proof.
  split.
  - apply (call_aladhan_api_failure (world_timing_out a_day) "methods" None []
             {| exc_type := Timeout;
                exc_str := "HTTPConnectionPool(host='api.aladhan.com', port=80): Read timed out. (read timeout=10)" |}).
    apply failure_on_get; reflexivity.
  - apply (call_aladhan_api_failure (world_replying a_day not_found) "metods" None []
             (http_error not_found)).
    apply (failure_on_status _ _ not_found); reflexivity.
Defined.

(** A page of HTML sent with status 200: the record says that the
    connection failed, not that the JSON is invalid. *)
Lemma invalid_json_reported_as_connection_failure_witness :
  call_aladhan_api (world_replying a_day html_page) "methods" None [] =
  (Ret (PDict [("error", PStr "Expecting value: line 1 column 1 (char 0)");
               ("details", PStr "Failed to connect to Aladhan API")]),
   [api_request "methods" None]) /\
  fst (call_aladhan_api (world_replying a_day html_page) "methods" None []) <>
  Ret (PDict [("error", PStr "Invalid JSON response from Aladhan API")]).
Proof.
  apply (invalid_json_reported_as_connection_failure
           (world_replying a_day html_page) "methods" None [] html_page
           "Expecting value: line 1 column 1 (char 0)");
    reflexivity.
Defined.

(** The example of the specification: [2024-07-20] is sent as
    [20-07-2024]. *)
Lemma prayer_request_date_witness :
  exists params,
    snd (run (world_answering a_day (timings_doc timings_with_junk))
             "get_prayer_times_by_city"
             (london ++ [("date", PStr "2024-07-20")])%list) =
    [api_request "timingsByCity/20-07-2024" (Some params)].
Proof.
  apply (prayer_request_date rf rs
           (world_answering a_day (timings_doc timings_with_junk))
           "get_prayer_times_by_city"
           (london ++ [("date", PStr "2024-07-20")])%list
           ("🕌 Prayer Times for London, UK" ++ nl) "20-07-2024").
  - reflexivity.
  - apply (date_given a_day {| year := 2024; month := 7; day := 20 |}).
    + reflexivity.
    + simpl. lia.
Defined.

(** C5 as stated fails: [2024-7-5] does not match the declared pattern, yet
    it is not rejected; the request goes out for the fifth of July.  An
    empty date is not rejected either: it stands for today. *)
Lemma date_pattern_not_enforced_counterexample :
  iso_date_pattern "2024-7-5" = false /\
  snd (run (world_answering a_day (timings_doc timings_with_junk))
           "get_prayer_times_by_city"
           (london ++ [("date", PStr "2024-7-5")])%list) =
  [api_request "timingsByCity/05-07-2024" (Some london)] /\
  iso_date_pattern "" = false /\
  snd (run (world_answering a_day (timings_doc timings_with_junk))
           "get_prayer_times_by_city"
           (london ++ [("date", PStr "")])%list) =
  [api_request "timingsByCity/09-03-2025" (Some london)].
Proof. repeat split; vm_compute; reflexivity. Qed.

(** Two answers with the same [error] and different [details]: the same
    reply, made of the error message alone. *)
Lemma error_reply_is_error_value_witness :
  fst (run (world_answering a_day (PDict rate_limited))
           "get_qibla_direction" here) =
  Ret (text_reply "Error: rate limited") /\
  fst (run (world_answering a_day (PDict rate_limited_retry))
           "get_qibla_direction" here) =
  fst (run (world_answering a_day (PDict rate_limited))
           "get_qibla_direction" here).
Proof.
  apply (error_reply_is_error_value rf rs
           (world_answering a_day (PDict rate_limited))
           (world_answering a_day (PDict rate_limited_retry))
           "get_qibla_direction" here rate_limited rate_limited_retry
           (PStr "rate limited")).
  - vm_compute. discriminate.
  - intros rq H. reflexivity.
  - reflexivity.
  - vm_compute. discriminate.
  - intros rq H. reflexivity.
  - reflexivity.
Defined.

(** The example of the specification: one block for method 1 with both
    angles, none for entry 2. *)
Lemma methods_blocks_witness :
  fst (run (world_answering a_day (methods_doc two_methods))
           "get_calculation_methods" []) =
  Ret (text_reply
         (methods_header ++
          "1. University of Islamic Sciences, Karachi" ++ nl ++
          "   - Fajr: 18°" ++ nl ++ "   - Isha: 18°" ++ nl ++ nl)) /\
  (two_methods = [] ->
   fst (run (world_answering a_day (methods_doc two_methods))
            "get_calculation_methods" []) =
   Ret (text_reply methods_header)).
Proof.
  apply (methods_blocks rf rs (world_answering a_day (methods_doc two_methods))
           [] [("data", PDict two_methods)] two_methods); try reflexivity.
  intros rq. reflexivity.
Defined.

(** C7 as stated fails: a named entry whose [params] is [null] gets no
    block; the whole reply is the error of the outer clause. *)
Lemma methods_params_null_counterexample :
  forallb is_named method_without_params = true /\
  fst (run (world_answering a_day (methods_doc method_without_params))
           "get_calculation_methods" []) =
  Ret (text_reply
         "Error executing get_calculation_methods: argument of type 'NoneType' is not iterable") /\
  is_substring "3. X"
    "Error executing get_calculation_methods: argument of type 'NoneType' is not iterable"
  = false.
Proof. repeat split; vm_compute; reflexivity. Qed.

(** A call without [country] is answered with the [KeyError], and a call
    with the 32nd of July with the complaint of [strptime]; neither sends a
    request. *)
Lemma invalid_arguments_reply_witness :
  run (world_timing_out a_day) "get_prayer_times_by_city" [("city", PStr "London")] =
  (Ret (text_reply "Error executing get_prayer_times_by_city: 'country'"), []) /\
  run (world_timing_out a_day) "get_prayer_times_by_coordinates"
      (here ++ [("date", PStr "2024-07-32")])%list =
  (Ret (text_reply
          "Error executing get_prayer_times_by_coordinates: unconverted data remains: 2"),
   []).
Proof.
  split.
  - apply (invalid_arguments_reply rf rs (world_timing_out a_day)
             "get_prayer_times_by_city" [("city", PStr "London")]
             {| exc_type := KeyError; exc_str := "'country'" |}).
    reflexivity.
  - apply (invalid_arguments_reply rf rs (world_timing_out a_day)
             "get_prayer_times_by_coordinates"
             (here ++ [("date", PStr "2024-07-32")])%list
             {| exc_type := ValueError;
                exc_str := "unconverted data remains: 2" |}).
    reflexivity.
Defined.

(** A date whose year is written in Arabic-Indic digits is not rejected:
    the request goes out for the 20th of July 2024. *)
Example unicode_digits_date_is_sent :
  request_error rs "get_prayer_times_by_city"
    (london ++ [("date", PStr "٢٠٢٤-07-20")])%list = None /\
  snd (run (world_timing_out a_day) "get_prayer_times_by_city"
         (london ++ [("date", PStr "٢٠٢٤-07-20")])%list) =
  [api_request "timingsByCity/20-07-2024" (Some london)].
Proof. split; vm_compute; reflexivity. Qed.

(** Two runs on different days, no date given, same upstream answer. *)
Lemma reply_deterministic_witness :
  fst (run (world_answering a_day (timings_doc timings_with_junk))
           "get_prayer_times_by_city" london) =
  fst (run (world_answering another_day (timings_doc timings_with_junk))
           "get_prayer_times_by_city" london).
Proof.
  apply (reply_deterministic rf rs
           (world_answering a_day (timings_doc timings_with_junk))
           (world_answering another_day (timings_doc timings_with_junk))
           "get_prayer_times_by_city" london).
  intros rq1 rq2. reflexivity.
Defined.

(** * Examples for the further properties *)

(** A decoded list comes back as it is. *)
Lemma call_aladhan_api_success_witness :
  call_aladhan_api (world_answering a_day (PList [PInt 1; PNone])) "methods" None [] =
  (Ret (PList [PInt 1; PNone]), [api_request "methods" None]).
Proof.
  apply (call_aladhan_api_success
           (world_answering a_day (PList [PInt 1; PNone])) "methods" None []
           (ok_response (PList [PInt 1; PNone])) tt (PList [PInt 1; PNone]));
    reflexivity.
Defined.

(** A body nested too deeply for the decoder. *)
Lemma unconverted_exception_reply_witness :
  exists rq,
    run (world_recursion a_day) "get_calculation_methods" [] =
    (Ret (text_reply
            "Error executing get_calculation_methods: maximum recursion depth exceeded while decoding a JSON array from a unicode string"),
     [rq]).
Proof.
  apply (unconverted_exception_reply rf rs (world_recursion a_day)
           "get_calculation_methods" []
           {| exc_type := OtherException "RecursionError";
              exc_str := "maximum recursion depth exceeded while decoding a JSON array from a unicode string" |}).
  - simpl. tauto.
  - reflexivity.
  - intros rq.
    apply (uncaught_on_body _ _ _
             {| raise_for_status := Ret tt;
                json := throw (OtherException "RecursionError")
                          "maximum recursion depth exceeded while decoding a JSON array from a unicode string" |}
             tt); reflexivity.
Defined.

Lemma unknown_tool_reply_witness :
  run (world_timing_out a_day) "get_weather" here =
  (Ret (text_reply "Unknown tool: get_weather"), []).
Proof.
  apply (unknown_tool_reply rf rs (world_timing_out a_day) "get_weather" here).
  simpl. intros H. repeat (destruct H as [H|H]; [discriminate H|]). exact H.
Defined.

Lemma valid_arguments_send_one_request_witness :
  exists rq, snd (run (world_timing_out a_day) "get_qibla_direction" here) = [rq].
Proof.
  apply (valid_arguments_send_one_request rf rs (world_timing_out a_day)
           "get_qibla_direction" here).
  - simpl. tauto.
  - reflexivity.
Defined.

(** School 0 (Shafi) is sent; the date and a stray argument are not part of
    the query. *)
Lemma prayer_query_parameters_witness :
  exists params,
    snd (run (world_timing_out a_day) "get_prayer_times_by_city"
           (london ++ [("date", PStr "2024-07-20"); ("school", PInt 0);
                       ("verbose", PBool true)])%list) =
    [api_request "timingsByCity/20-07-2024" (Some params)] /\
    forall k,
      lookup k params =
      if String.eqb k "method"
      then optional_value
             (london ++ [("date", PStr "2024-07-20"); ("school", PInt 0);
                         ("verbose", PBool true)])%list "method"
      else if String.eqb k "school"
      then optional_value
             (london ++ [("date", PStr "2024-07-20"); ("school", PInt 0);
                         ("verbose", PBool true)])%list "school"
      else if existsb (String.eqb k) (required_fields "get_prayer_times_by_city")
      then lookup k (london ++ [("date", PStr "2024-07-20"); ("school", PInt 0);
                                ("verbose", PBool true)])%list
      else None.
Proof.
  apply (prayer_query_parameters rf rs (world_timing_out a_day)
           "get_prayer_times_by_city"
           (london ++ [("date", PStr "2024-07-20"); ("school", PInt 0);
                       ("verbose", PBool true)])%list
           ("🕌 Prayer Times for London, UK" ++ nl) "20-07-2024");
    reflexivity.
Defined.

Lemma hijri_conversion_reply_witness :
  run (world_answering a_day hijri_doc) "convert_gregorian_to_hijri"
      [("date", PStr "20-07-2024")] =
  (Ret (text_reply
          ("📅 Date Conversion" ++ nl ++ nl ++
           "Gregorian: 20-07-2024 July 2024" ++ nl ++
           "Hijri: 14-01-1446 Muharram 1446 AH" ++ nl ++
           "Islamic Month: Muharram (ar) (Muharram)" ++ nl ++
           "Weekday: Al Sabt" ++ nl)),
   [api_request "gToH" (Some [("date", PStr "20-07-2024")])]).
Proof.
  apply (hijri_conversion_reply rf rs (world_answering a_day hijri_doc)
           [("date", PStr "20-07-2024")] (PStr "20-07-2024")
           [("data",
             PDict [("hijri",
                     PDict [("date", PStr "14-01-1446");
                            ("month", PDict [("en", PStr "Muharram");
                                             ("ar", PStr "Muharram (ar)")]);
                            ("year", PStr "1446");
                            ("weekday", PDict [("en", PStr "Al Sabt")])]);
                    ("gregorian",
                     PDict [("date", PStr "20-07-2024");
                            ("month", PDict [("en", PStr "July")]);
                            ("year", PStr "2024")])])]
           [("hijri",
             PDict [("date", PStr "14-01-1446");
                    ("month", PDict [("en", PStr "Muharram");
                                     ("ar", PStr "Muharram (ar)")]);
                    ("year", PStr "1446");
                    ("weekday", PDict [("en", PStr "Al Sabt")])]);
            ("gregorian",
             PDict [("date", PStr "20-07-2024");
                    ("month", PDict [("en", PStr "July")]);
                    ("year", PStr "2024")])]
           [("date", PStr "14-01-1446");
            ("month", PDict [("en", PStr "Muharram"); ("ar", PStr "Muharram (ar)")]);
            ("year", PStr "1446");
            ("weekday", PDict [("en", PStr "Al Sabt")])]
           [("date", PStr "20-07-2024");
            ("month", PDict [("en", PStr "July")]);
            ("year", PStr "2024")]
           [("en", PStr "July")]
           [("en", PStr "Muharram"); ("ar", PStr "Muharram (ar)")]
           [("en", PStr "Al Sabt")]
           (PStr "20-07-2024") (PStr "July") (PStr "2024")
           (PStr "14-01-1446") (PStr "Muharram") (PStr "1446")
           (PStr "Muharram (ar)") (PStr "Al Sabt"));
    try reflexivity.
  intros rq. reflexivity.
Defined.

(** An answer without [data], and one whose [data] has no [direction]. *)
Lemma no_data_reply_witness :
  fst (run (world_answering a_day (PDict [("code", PInt 200)]))
           "get_prayer_times_by_city" london) =
  Ret (text_reply "No prayer time data found in response") /\
  fst (run (world_answering a_day (PDict [("data", PDict [])]))
           "get_qibla_direction" here) =
  Ret (text_reply "No Qibla direction data found").
Proof.
  split.
  - apply (no_data_reply rf rs (world_answering a_day (PDict [("code", PInt 200)]))
             "get_prayer_times_by_city" london [("code", PInt 200)]);
      try reflexivity; [simpl; tauto | intros rq; reflexivity].
  - apply (no_data_reply rf rs (world_answering a_day (PDict [("data", PDict [])]))
             "get_qibla_direction" here [("data", PDict [])]);
      try reflexivity; [simpl; tauto | intros rq; reflexivity].
Defined.

Lemma lenient_date_is_normalised_witness :
  exists params,
    snd (run (world_timing_out a_day) "get_prayer_times_by_coordinates"
           (here ++ [("date", PStr "2024-7-5")])%list) =
    [api_request "timings/05-07-2024" (Some params)].
Proof.
  apply (lenient_date_is_normalised rf rs (world_timing_out a_day)
           "get_prayer_times_by_coordinates"
           (here ++ [("date", PStr "2024-7-5")])%list
           ("🕌 Prayer Times for coordinates (51, 0)" ++ nl)
           {| year := 2024; month := 7; day := 5 |});
    try reflexivity.
  simpl. lia.
Defined.

(** The 29th of February 2023. *)
Lemma nonexistent_day_rejected_witness :
  run (world_timing_out a_day) "get_prayer_times_by_city"
      (london ++ [("date", PStr "2023-02-29")])%list =
  (Ret (text_reply
          "Error executing get_prayer_times_by_city: day is out of range for month"),
   []).
Proof.
  apply (nonexistent_day_rejected rf rs (world_timing_out a_day)
           "get_prayer_times_by_city"
           (london ++ [("date", PStr "2023-02-29")])%list
           ("🕌 Prayer Times for London, UK" ++ nl)
           {| year := 2023; month := 2; day := 29 |});
    try reflexivity; vm_compute; split; (reflexivity || discriminate).
Defined.

(** A NaN is printed as [nan] and labelled by the final [else]. *)
Lemma qibla_float_reply_witness :
  fst (run (world_answering a_day (direction_doc (PFloat S754_nan)))
           "get_qibla_direction" here) =
  Ret (text_reply (qibla_text rf rs (PInt 51) (PInt 0) "nan" "Northwest")).
Proof.
  apply (qibla_float_reply rf rs
           (world_answering a_day (direction_doc (PFloat S754_nan)))
           here (PInt 51) (PInt 0)
           [("data", PDict [("direction", PFloat S754_nan)])]
           [("direction", PFloat S754_nan)] S754_nan);
    try reflexivity.
  intros rq. reflexivity.
Defined.

(** A bearing sent as a string. *)
Lemma qibla_unprintable_direction_witness :
  fst (run (world_answering a_day (direction_doc (PStr "118.5")))
           "get_qibla_direction" here) =
  Ret (text_reply
         "Error executing get_qibla_direction: Unknown format code 'f' for object of type 'str'").
Proof.
  apply (qibla_unprintable_direction rf rs
           (world_answering a_day (direction_doc (PStr "118.5")))
           here (PInt 51) (PInt 0)
           [("data", PDict [("direction", PStr "118.5")])]
           [("direction", PStr "118.5")] (PStr "118.5")
           {| exc_type := ValueError;
              exc_str := "Unknown format code 'f' for object of type 'str'" |});
    try reflexivity.
  intros rq. reflexivity.
Defined.

(** The body [null]. *)
Lemma scalar_result_reply_witness :
  fst (run (world_answering a_day PNone) "convert_gregorian_to_hijri"
           [("date", PStr "20-07-2024")]) =
  Ret (text_reply
         "Error executing convert_gregorian_to_hijri: argument of type 'NoneType' is not iterable").
Proof.
  apply (scalar_result_reply rf rs (world_answering a_day PNone)
           "convert_gregorian_to_hijri" [("date", PStr "20-07-2024")] PNone);
    try reflexivity; [simpl; tauto | intros rq; reflexivity].
Defined.

Lemma timings_without_date_witness :
  fst (run (world_answering a_day
              (PDict [("data", PDict [("timings", PDict timings_with_junk)])]))
           "get_prayer_times_by_city" london) =
  Ret (text_reply "Error executing get_prayer_times_by_city: 'date'").
Proof.
  apply (timings_without_date rf rs
           (world_answering a_day
              (PDict [("data", PDict [("timings", PDict timings_with_junk)])]))
           "get_prayer_times_by_city" london
           ("🕌 Prayer Times for London, UK" ++ nl) "09-03-2025"
           [("data", PDict [("timings", PDict timings_with_junk)])]
           [("timings", PDict timings_with_junk)] (PDict timings_with_junk));
    try reflexivity.
  intros rq. reflexivity.
Defined.

(** With a date given, two runs on different days send the same request,
    so even an upstream that answers by the path gives the same reply. *)
Lemma explicit_date_ignores_today_witness :
  run (world_echoing a_day) "get_prayer_times_by_city"
      (london ++ [("date", PStr "2024-07-20")])%list =
  run (world_echoing another_day) "get_prayer_times_by_city"
      (london ++ [("date", PStr "2024-07-20")])%list.
Proof.
  apply (explicit_date_ignores_today rf rs (world_echoing a_day)
           (world_echoing another_day) "get_prayer_times_by_city"
           (london ++ [("date", PStr "2024-07-20")])%list).
  - intros rq. reflexivity.
  - intros _. reflexivity.
Defined.

Lemma decode_error_as_request_exception_witness :
  fst (call_aladhan_api (world_bad_body a_day RequestsJSONDecodeError)
         "methods" None []) =
  Ret (PDict [("error", PStr "Expecting value: line 1 column 1 (char 0)");
              ("details", PStr "Failed to connect to Aladhan API")]).
Proof.
  apply (decode_error_as_request_exception
           (world_bad_body a_day RequestsJSONDecodeError) "methods" None []
           {| raise_for_status := Ret tt;
              json := throw RequestsJSONDecodeError
                        "Expecting value: line 1 column 1 (char 0)" |}
           "Expecting value: line 1 column 1 (char 0)");
    reflexivity.
Defined.

(** The methods given as a list. *)
Lemma methods_data_not_a_mapping_witness :
  fst (run (world_answering a_day (PDict [("data", PList [])]))
           "get_calculation_methods" []) =
  Ret (text_reply
         "Error executing get_calculation_methods: 'list' object has no attribute 'items'").
Proof.
  apply (methods_data_not_a_mapping rf rs
           (world_answering a_day (PDict [("data", PList [])])) []
           [("data", PList [])] (PList []));
    try reflexivity.
  intros rq. reflexivity.
Defined.
